(** * Metalibm code-generation backend: entities, complex operators, RISC-V table

    A shallow embedding of

    - [metalibm_core/code_generation/code_entity.py]   (class [CodeEntity]),
    - [code_generation/complex_generator.py]           (class [ComplexOperator]),
    - [metalibm_core/targets/riscv/riscv.py]           ([lowerConversion],
      [rv64CCodeGenTable]),

    followed by the properties of the backend specification that these three
    files decide.

    Python objects are modelled by records, mutation by explicit state
    passing, exceptions by the [Result] type.  Classes the three files import
    but do not define (formats, the scoped code object, the code generator,
    the inline-assembly operator, the logger, the attribute store) appear as
    type-class parameters or as definitions modelled from the specification,
    each marked as such. *)

From Stdlib Require Import ZArith String List Lia Ascii.
From stdpp Require Import base strings list gmap.

Set Warnings "-register-all".
Open Scope string_scope.

(** ** Python runtime: text, exceptions *)

(** The line feed written [\n] in the Python sources. *)
Definition nl : string := String "010"%char EmptyString.

(** The double quote character, as a one-character string. *)
Definition dq : string := String "034"%char EmptyString.

(** [sep.join(lines)]. *)
Definition join (sep : string) (lines : list string) : string :=
  String.concat sep lines.

(** [len(s)]. *)
Definition len (s : string) : nat := String.length s.

(** A raised exception: its class and its message. *)
Inductive PyExn : Type :=
| Exception (cls : string) (msg : string).

Definition AttributeError (msg : string) : PyExn := Exception "AttributeError" msg.
Definition IndexError (msg : string) : PyExn := Exception "IndexError" msg.
Definition AssertionError : PyExn := Exception "AssertionError" "".

(** The outcome of a call: a returned value or a raised exception. *)
Inductive Result (A : Type) : Type :=
| Ok (a : A)
| Raise (e : PyExn).
Arguments Ok {A} a.
Arguments Raise {A} e.

#[global] Instance Result_ret : MRet Result := fun _ a => Ok a.
#[global] Instance Result_bind : MBind Result :=
  fun _ _ f m => match m with Ok a => f a | Raise e => Raise e end.
#[global] Instance Result_fmap : FMap Result :=
  fun _ _ f m => match m with Ok a => Ok (f a) | Raise e => Raise e end.

Definition is_Ok {A} (r : Result A) : bool :=
  match r with Ok _ => true | Raise _ => false end.

(** A method that mutates an object of type [S]: the outcome of the call and
    the object as the call leaves it (an exception keeps the mutations made
    before it was raised). *)
Definition Py (S A : Type) : Type := S -> Result A * S.

Definition py_ret {S A} (a : A) : Py S A := fun s => (Ok a, s).
Definition py_bind {S A B} (m : Py S A) (k : A -> Py S B) : Py S B :=
  fun s => match m s with
           | (Ok a, s') => k a s'
           | (Raise e, s') => (Raise e, s')
           end.
Definition py_raise {S A} (e : PyExn) : Py S A := fun s => (Raise e, s).
Definition py_lift {S A} (r : Result A) : Py S A := fun s => (r, s).

Declare Scope py_scope.
Delimit Scope py_scope with py.
Notation "x <~ m ;; k" := (py_bind m (fun x => k))
  (at level 63, m at next level, right associativity) : py_scope.
Notation "m ;;; k" := (py_bind m (fun _ => k))
  (at level 63, right associativity) : py_scope.

(** ** Dictionaries that keep insertion order

    [output_map] is iterated with [.values()], so the order of its entries
    is observable: it is an association list with the update rule of a
    Python dictionary (an existing key keeps its position). *)

Fixpoint dict_set {V} (k : string) (v : V) (d : list (string * V))
  : list (string * V) :=
  match d with
  | [] => [(k, v)]
  | (k', v') :: d' =>
      if String.eqb k' k then (k, v) :: d' else (k', v') :: dict_set k v d'
  end.

Fixpoint dict_get {V} (k : string) (d : list (string * V)) : option V :=
  match d with
  | [] => None
  | (k', v') :: d' => if String.eqb k' k then Some v' else dict_get k d'
  end.

(** [k in d]. *)
Definition dict_in {V} (k : string) (d : list (string * V)) : bool :=
  match dict_get k d with Some _ => true | None => false end.

(** [d.values()]. *)
Definition dict_values {V} (d : list (string * V)) : list V := map snd d.

(** ** Formats and output languages *)

(** The languages of [code_constant] that the three files name. *)
Inductive CodeLanguage : Type := C_Code | VHDL_Code.

(** The formats of [ml_formats] that the three files name, and any other. *)
Inductive ML_Format : Type :=
| ML_Int32 | ML_Int64 | ML_Binary32 | ML_Binary64
| ML_Custom (format_name : string).

#[global] Instance ML_Format_eq_dec : EqDecision ML_Format.
Proof. solve_decision. Defined.

(** [fmt.get_code_name(language = language)] is defined with the formats,
    outside the three files: a parameter of the development. *)
Class FormatCodeName : Type :=
  get_code_name : ML_Format -> CodeLanguage -> string.

(** ** Operation nodes *)

Inductive OpClass : Type :=
| VariableOp | SignalOp | ReferenceAssignOp | StatementOp
| NearestInteger | Conversion | SpecificOperation
| OtherOp (class_name : string).

#[global] Instance OpClass_eq_dec : EqDecision OpClass.
Proof. solve_decision. Defined.

Inductive Specifier : Type :=
| ReadTimeStamp
| OtherSpecifier (specifier_name : string).

#[global] Instance Specifier_eq_dec : EqDecision Specifier.
Proof. solve_decision. Defined.

(** [AbstractVariable.Input], [Variable.Output] / [Signal.Output]. *)
Inductive VarType : Type := Input | Output | Local.

(** A node of the operation DAG: its class, optional specifier, operands,
    result format (possibly unresolved), tag and, for variables and signals,
    direction. *)
Inductive ML_Operation : Type := MkOp {
  op_class : OpClass;
  specifier : option Specifier;
  inputs : list ML_Operation;
  precision : option ML_Format;
  tag : option string;
  var_type : option VarType
}.

Definition get_tag (n : ML_Operation) : option string := tag n.
Definition get_precision (n : ML_Operation) : option ML_Format := precision n.
Definition get_inputs (n : ML_Operation) : list ML_Operation := inputs n.

(** [n.get_input(i)]: indexing the operand list, [IndexError] out of range. *)
Definition get_input (n : ML_Operation) (i : nat) : Result ML_Operation :=
  match inputs n !! i with
  | Some x => Ok x
  | None => Raise (IndexError "list index out of range")
  end.

(** [Variable(name, precision = p, var_type = vt)]. *)
Definition mkVariable (nm : string) (p : option ML_Format)
  (vt : option VarType) : ML_Operation :=
  MkOp VariableOp None [] p (Some nm) vt.

(** [Signal(name, precision = p, var_type = vt)]. *)
Definition mkSignal (nm : string) (p : option ML_Format)
  (vt : option VarType) : ML_Operation :=
  MkOp SignalOp None [] p (Some nm) vt.

(** [ReferenceAssign(port, value)]. *)
Definition mkReferenceAssign (port value : ML_Operation) : ML_Operation :=
  MkOp ReferenceAssignOp None [port; value] None None None.

(** [Statement( *ops )]. *)
Definition mkStatement (ops : list ML_Operation) : ML_Operation :=
  MkOp StatementOp None ops None None None.

(** [Conversion(op, precision = p)]. *)
Definition mkConversion (op : ML_Operation) (p : ML_Format) : ML_Operation :=
  MkOp Conversion None [op] (Some p) None None.

(** ["%s" % t] for a tag: the tag itself, or the text of [None]. *)
Definition format_s (t : option string) : string :=
  match t with Some s => s | None => "None" end.

(** [p.get_code_name(language = l)] on a possibly unresolved format: calling
    the method on [None] raises [AttributeError]. *)
Definition call_get_code_name `{FormatCodeName}
  (p : option ML_Format) (l : CodeLanguage) : Result string :=
  match p with
  | Some f => Ok (get_code_name f l)
  | None =>
      Raise (AttributeError "'NoneType' object has no attribute 'get_code_name'")
  end.

(** ** The attribute registry ([core/attributes.py], not among the sources)

    [AttributeCtor(name, default_value = v)] builds an object with two fields;
    [Attributes.add_dyn_attribute(ctor)] appends the object to a process-wide
    list.  [CodeEntity] keeps a reference to the object it registered and
    later assigns its [default_value] field, so the registry and the entity
    alias one object: the registry list is the store, and a reference is an
    index into it. *)

Inductive AttrValue : Type :=
| AttrNone
| AttrInt (z : Z).

Record AttributeCtor : Type := MkAttributeCtor {
  attr_name : string;
  default_value : AttrValue
}.

(** [ctor.default_value = v]. *)
Definition set_default_value (v : AttrValue) (c : AttributeCtor) : AttributeCtor :=
  MkAttributeCtor (attr_name c) v.

(** Modelled from the spec: the attribute values a node receives when it is
    created ([Attributes.__init__] is missing from the sources).  The spec
    says every registered attribute kind has a declared default and that a
    node created while a stage is active is tagged with that stage: a new
    node takes, kind by kind in registration order, the default declared at
    the time of its creation. *)
Definition Attributes_init (dyn_attribute_list : list AttributeCtor)
  : gmap string AttrValue :=
  foldl (fun attrs c => <[attr_name c := default_value c]> attrs) ∅
        dyn_attribute_list.

(** ** [class CodeEntity]

    The fields [code_object], [entity_object], [entity_operator] and
    [component_object] are stored or initialised to [None] by [__init__] and
    read by none of the methods embedded below; they are left out. *)

Record CodeEntity : Type := MkCodeEntity {
  name : string;
  arg_list : list ML_Operation;
  arg_map : gmap (option string) ML_Operation;
  output_map : list (string * ML_Operation);
  language : CodeLanguage;
  process_list : list ML_Operation;
  current_stage : Z;
  (** references into the attribute registry *)
  init_stage_attribute : nat;
  init_op_attribute : nat
}.

Definition with_arg_list (l : list ML_Operation) (self : CodeEntity) : CodeEntity :=
  MkCodeEntity (name self) l (arg_map self) (output_map self) (language self)
    (process_list self) (current_stage self)
    (init_stage_attribute self) (init_op_attribute self).

Definition with_arg_map (m : gmap (option string) ML_Operation)
  (self : CodeEntity) : CodeEntity :=
  MkCodeEntity (name self) (arg_list self) m (output_map self) (language self)
    (process_list self) (current_stage self)
    (init_stage_attribute self) (init_op_attribute self).

Definition with_output_map (m : list (string * ML_Operation))
  (self : CodeEntity) : CodeEntity :=
  MkCodeEntity (name self) (arg_list self) (arg_map self) m (language self)
    (process_list self) (current_stage self)
    (init_stage_attribute self) (init_op_attribute self).

Definition with_process_list (l : list ML_Operation) (self : CodeEntity) : CodeEntity :=
  MkCodeEntity (name self) (arg_list self) (arg_map self) (output_map self)
    (language self) l (current_stage self)
    (init_stage_attribute self) (init_op_attribute self).

Definition with_current_stage (z : Z) (self : CodeEntity) : CodeEntity :=
  MkCodeEntity (name self) (arg_list self) (arg_map self) (output_map self)
    (language self) (process_list self) z
    (init_stage_attribute self) (init_op_attribute self).

(** The state an entity's methods act on: the process-wide registry
    [Attributes.dyn_attribute_list] and the entity object. *)
Record World : Type := MkWorld {
  dyn_attribute_list : list AttributeCtor;
  entity : CodeEntity
}.

(** [CodeEntity.__init__(name, arg_list, output_map, code_object, language)]
    followed by [instanciate_dyn_attributes]: the stage counter is 0, and two
    attribute constructors, [init_stage] with the current stage as default
    and [init_op] with [None], are created and registered. *)
Definition CodeEntity_init (nm : string)
  (arg_list0 : option (list ML_Operation))
  (output_map0 : option (list (string * ML_Operation)))
  (language0 : option CodeLanguage)
  (registry : list AttributeCtor) : World :=
  let arg_list := match arg_list0 with Some (x :: l) => x :: l | _ => [] end in
  let arg_map :=
    foldl (fun m arg => <[get_tag arg := arg]> m) (∅ : gmap (option string) ML_Operation) arg_list in
  let output_map := match output_map0 with Some (x :: l) => x :: l | _ => [] end in
  let language := match language0 with Some l => l | None => VHDL_Code end in
  let current_stage := 0%Z in
  let init_stage_attribute := MkAttributeCtor "init_stage" (AttrInt current_stage) in
  let init_op_attribute := MkAttributeCtor "init_op" AttrNone in
  MkWorld (registry ++ [init_stage_attribute; init_op_attribute])
    (MkCodeEntity nm arg_list arg_map output_map language [] current_stage
       (length registry) (S (length registry))).

Definition get_name (self : CodeEntity) : string := name self.

(** Modelled from the spec: [Log.report(Log.error, msg)], the error report
    of the logger ([utility/log_report.py] is missing from the sources, and
    [code_entity.py] uses [Log] without importing it by name).  The spec
    makes the registration of an output under an existing name fatal and
    calls the failure [DuplicateOutputNameError]: the report raises. *)
Definition Log_report_error {S A} (msg : string) : Py S A :=
  py_raise (Exception "DuplicateOutputNameError" msg).

(** The exception of that report for the message the entity builds. *)
Definition DuplicateOutputNameError (nm : string) : PyExn :=
  Exception "DuplicateOutputNameError"
    ("pre-existing name " ++ nm ++ " in output_map").

Section CodeEntityMethods.
Local Open Scope py_scope.

Definition add_input_variable (nm : string) (vartype : option ML_Format)
  : Py CodeEntity ML_Operation := fun self =>
  let input_var := mkVariable nm vartype None in
  let self := with_arg_list (arg_list self ++ [input_var]) self in
  let self := with_arg_map (<[Some nm := input_var]> (arg_map self)) self in
  (Ok input_var, self).

Definition add_output_variable (nm : string) (output_node : ML_Operation)
  : Py CodeEntity unit :=
  let output_var := mkVariable nm (get_precision output_node) (Some Output) in
  let output_assign := mkReferenceAssign output_var output_node in
  (fun self =>
     if dict_in nm (output_map self)
     then Log_report_error ("pre-existing name " ++ nm ++ " in output_map") self
     else py_ret tt self) ;;;
  (fun self =>
     (Ok tt, with_output_map (dict_set nm output_assign (output_map self)) self)).

Definition add_input_signal (nm : string) (signaltype : option ML_Format)
  : Py CodeEntity ML_Operation := fun self =>
  let input_signal := mkSignal nm signaltype None in
  let self := with_arg_list (arg_list self ++ [input_signal]) self in
  let self := with_arg_map (<[Some nm := input_signal]> (arg_map self)) self in
  (Ok input_signal, self).

Definition add_output_signal (nm : string) (output_node : ML_Operation)
  : Py CodeEntity unit :=
  let output_var := mkSignal nm (get_precision output_node) (Some Output) in
  let output_assign := mkReferenceAssign output_var output_node in
  (fun self =>
     if dict_in nm (output_map self)
     then Log_report_error ("pre-existing name " ++ nm ++ " in output_map") self
     else py_ret tt self) ;;;
  (fun self =>
     (Ok tt, with_output_map (dict_set nm output_assign (output_map self)) self)).

Definition get_input_by_tag (self : CodeEntity) (t : option string)
  : option ML_Operation :=
  match arg_map self !! t with
  | Some n => Some n
  | None => None
  end.

Definition get_port_from_output (out : ML_Operation) : Result ML_Operation :=
  get_input out 0.
Definition get_value_from_output (out : ML_Operation) : Result ML_Operation :=
  get_input out 1.

Definition get_output_assign (self : CodeEntity) : list ML_Operation :=
  dict_values (output_map self).

Definition get_current_stage (self : CodeEntity) : Z := current_stage self.

(** [set_current_stage(stage_id)]: the counter and the default of the
    registered [init_stage] constructor are both assigned. *)
Definition set_current_stage (stage_id : Z) : Py World unit := fun w =>
  let self := with_current_stage stage_id (entity w) in
  let registry :=
    alter (set_default_value (AttrInt (current_stage self)))
          (init_stage_attribute self) (dyn_attribute_list w) in
  (Ok tt, MkWorld registry self).

Definition start_new_stage : Py World unit := fun w =>
  set_current_stage (current_stage (entity w) + 1) w.

Definition add_process (new_process : ML_Operation) : Py CodeEntity unit :=
  fun self => (Ok tt, with_process_list (process_list self ++ [new_process]) self).

Definition register_new_input_variable (new_input : ML_Operation)
  : Py CodeEntity unit :=
  fun self => (Ok tt, with_arg_list (arg_list self ++ [new_input]) self).

Definition get_arg_list (self : CodeEntity) : list ML_Operation := arg_list self.

Definition clear_arg_list : Py CodeEntity unit :=
  fun self => (Ok tt, with_arg_list [] self).

(** [assert isinstance(output, ReferenceAssign)], then the format of the
    port, or of the value when the port has none. *)
Definition get_output_precision (output : ML_Operation)
  : Result (option ML_Format) :=
  if decide (op_class output = ReferenceAssignOp) then
    out_signal ← get_input output 0;
    out_value ← get_input output 1;
    match get_precision out_signal with
    | None => Ok (get_precision out_value)
    | Some p => Ok (Some p)
    end
  else Raise AssertionError.

(** [Statement( *tuple(self.process_list + list(self.get_output_assign())))]. *)
Definition get_scheme (self : CodeEntity) : ML_Operation :=
  mkStatement (process_list self ++ get_output_assign self).
End CodeEntityMethods.

(** ** Interface text of an entity *)

Section Declarations.
Context `{FormatCodeName}.

(** ["%s : in %s" % (inp.get_tag(), inp.get_precision().get_code_name(language = language))] *)
Definition input_port_line (lang : CodeLanguage) (inp : ML_Operation)
  : Result string :=
  code ← call_get_code_name (get_precision inp) lang;
  mret (format_s (get_tag inp) ++ " : in " ++ code).

(** The output line of [get_declaration]: the format comes from
    [get_output_precision]. *)
Definition output_port_line (lang : CodeLanguage) (out : ML_Operation)
  : Result string :=
  port ← get_port_from_output out;
  p ← get_output_precision out;
  code ← call_get_code_name p lang;
  mret (format_s (get_tag port) ++ " : out " ++ code).

(** The output line of [get_component_declaration]: the format is read on
    the port itself. *)
Definition component_output_port_line (lang : CodeLanguage)
  (out : ML_Operation) : Result string :=
  port ← get_port_from_output out;
  port' ← get_port_from_output out;
  code ← call_get_code_name (get_precision port') lang;
  mret (format_s (get_tag port) ++ " : out " ++ code).

Definition get_declaration (self : CodeEntity) (final : bool)
  (language0 : option CodeLanguage) : Result string :=
  let lang := match language0 with None => language self | Some l => l end in
  input_port_list ← mapM (input_port_line lang) (arg_list self);
  output_port_list ← mapM (output_port_line lang) (get_output_assign self);
  let port_format_list :=
    join (";" ++ nl ++ "  ") (input_port_list ++ output_port_list) in
  let port_desc := "port (" ++ nl ++ "  " ++ port_format_list ++ nl ++ ");" in
  let port_desc := if Nat.eqb (len port_format_list) 0 then "" else port_desc in
  mret ("entity " ++ name self ++ " is " ++ nl ++ port_desc ++ nl
        ++ "end " ++ name self ++ ";" ++ nl ++ nl).

Definition get_component_declaration (self : CodeEntity) (final : bool)
  (language0 : option CodeLanguage) : Result string :=
  let lang := match language0 with None => language self | Some l => l end in
  input_port_list ← mapM (input_port_line lang) (arg_list self);
  output_port_list ←
    mapM (component_output_port_line lang) (get_output_assign self);
  let port_format_list :=
    join (";" ++ nl ++ "  ") (input_port_list ++ output_port_list) in
  let port_desc := "port (" ++ nl ++ "  " ++ port_format_list ++ nl ++ ");" in
  let port_desc := if Nat.eqb (len port_format_list) 0 then "" else port_desc in
  mret ("component " ++ name self ++ " " ++ nl ++ port_desc ++ nl
        ++ "end component;" ++ nl ++ nl).
End Declarations.

(** ** Code objects and code generators (interfaces)

    [NestedCode], [VHDLCodeObject] and the code generator classes are
    imported by the sources, not defined in them.  The entity and the
    complex operator only call their methods, so they are embedded over an
    interface. *)

(** A keyword argument value. *)
Inductive KwValue : Type :=
| KwNone
| KwBool (b : bool)
| KwLanguage (l : CodeLanguage)
| KwStr (s : string).

(** [**kwords]. *)
Definition Kwords : Type := list (string * KwValue).

(** What [generate_expr] returns: the text by which later code refers to the
    generated value. *)
Definition Ref : Type := string.

(** [code_generator.generate_expr(code_object, optree, **kwords)]; the
    operation may be [None]. *)
Record CodeGenerator (CO : Type) : Type := MkCodeGenerator {
  cg_generate_expr : option ML_Operation -> Kwords -> Py CO Ref
}.
Arguments MkCodeGenerator {CO} _.
Arguments cg_generate_expr {CO} _ _ _ _.

Inductive CodeObjectCtor : Type := VHDLCodeObject.

Class CodeObjectInterface (CO : Type) : Type := {
  (** [NestedCode(code_generator, static_cst = .., code_ctor = ..)] *)
  NestedCode : CodeGenerator CO -> bool -> CodeObjectCtor -> CO;
  (** [code_object.add_local_header(h)] *)
  add_local_header : string -> Py CO unit;
  (** [code_object << text] *)
  emit : string -> Py CO unit;
  (** [code_object.open_level(inc = ..)] *)
  open_level : bool -> Py CO unit;
  (** [code_object.close_level(inc = ..)] *)
  close_level : bool -> Py CO unit
}.

Section Definitions.
Context `{FormatCodeName} {CO : Type} `{CodeObjectInterface CO}.
Local Open Scope py_scope.

(** The keywords both definition builders pass to the generator. *)
Definition definition_kwords (language0 : option CodeLanguage)
  (folded : bool) : Kwords :=
  [("folded", KwBool folded); ("initial", KwBool false);
   ("language", match language0 with Some l => KwLanguage l | None => KwNone end)].

Definition get_definition (self : CodeEntity) (code_generator : CodeGenerator CO)
  (language0 : option CodeLanguage) (folded static_cst : bool) : Result CO :=
  let code_object := NestedCode code_generator static_cst VHDLCodeObject in
  let body : Py CO unit :=
    add_local_header "ieee.std_logic_1164.all" ;;;
    add_local_header "ieee.std_logic_unsigned.all" ;;;
    add_local_header "ieee.numeric_std.all" ;;;
    (decl <~ py_lift (get_declaration self false language0) ;;
     emit decl) ;;;
    open_level false ;;;
    cg_generate_expr code_generator (Some (get_scheme self))
      (definition_kwords language0 folded) ;;;
    close_level false in
  match body code_object with
  | (Ok _, code_object) => Ok code_object
  | (Raise e, _) => Raise e
  end.

(** [add_definition] returns the code object it was given; the object
    after the call is the state component of the result. *)
Definition add_definition (self : CodeEntity) (code_generator : CodeGenerator CO)
  (language0 : option CodeLanguage) (folded static_cst : bool) : Py CO unit :=
  (decl <~ py_lift (get_declaration self false language0) ;;
   emit decl) ;;;
  emit ("architecture rtl of " ++ name self ++ " is" ++ nl) ;;;
  open_level true ;;;
  cg_generate_expr code_generator (Some (get_scheme self))
    (definition_kwords language0 folded) ;;;
  close_level true ;;;
  emit ("end architecture;" ++ nl).
End Definitions.

(** ** [class ComplexOperator(ML_CG_Operator)] *)

(** Placeholders of an operator template: [FO_Result(i)], [FO_Arg(i)]. *)
Inductive FO_Slot : Type :=
| FO_Result (index : nat)
| FO_Arg (index : nat).

(** The operator templates the sources build: inline assembly, and the
    complex operator with its tree modifier and optional backup operator.
    A modifier returns a node or [None], or raises. *)
Inductive ML_CG_Operator : Type :=
| AsmInlineOperator (template : string) (slots : list (nat * FO_Slot))
    (arity : nat)
| ComplexOperator
    (optree_modifier : ML_Operation -> Result (option ML_Operation))
    (backup_operator : option ML_CG_Operator).

(** [AsmInlineOperator.generate_expr] is defined in [generator_utility],
    outside the sources: a parameter.  [PreProcess] is the type of the
    [generate_pre_process] callback. *)
Class InlineAsmBackend (CO PreProcess : Type) : Type :=
  asm_generate_expr :
    string -> list (nat * FO_Slot) -> nat ->
    CodeGenerator CO -> ML_Operation -> list ML_Operation ->
    option PreProcess -> Kwords -> Py CO Ref.

Section ComplexGenerator.
Context {CO PreProcess : Type} `{InlineAsmBackend CO PreProcess}.

(** [self.generate_expr(code_generator, code_object, optree, arg_tuple,
    generate_pre_process = .., **kwords)]; the code object is the state. *)
Fixpoint generate_expr (self : ML_CG_Operator)
  (code_generator : CodeGenerator CO) (optree : ML_Operation)
  (arg_tuple : list ML_Operation) (generate_pre_process : option PreProcess)
  (kwords : Kwords) {struct self} : Py CO Ref :=
  match self with
  | AsmInlineOperator template slots arity =>
      asm_generate_expr template slots arity code_generator optree arg_tuple
        generate_pre_process kwords
  | ComplexOperator optree_modifier backup_operator =>
      fun code_object =>
        match optree_modifier optree with
        | Raise e => (Raise e, code_object)
        | Ok new_optree =>
            match new_optree, backup_operator with
            | None, Some backup =>
                generate_expr backup code_generator optree arg_tuple
                  generate_pre_process kwords code_object
            | _, _ =>
                cg_generate_expr code_generator new_optree kwords code_object
            end
        end
  end.
End ComplexGenerator.

(** Modelled from the spec: the failure the specification names for an
    exhausted rewrite; no source file defines or raises it. *)
Definition RewriteChainExhausted : PyExn :=
  Exception "RewriteChainExhausted" "".

(** Backup chains: [falls_back_to optree op op'] when [op'] is reached from
    [op] through backup operators, every complex operator passed on the way
    having a modifier that finds no replacement for [optree]. *)
Inductive falls_back_to (optree : ML_Operation)
  : ML_CG_Operator -> ML_CG_Operator -> Prop :=
| falls_back_here (op : ML_CG_Operator) : falls_back_to optree op op
| falls_back_next (optree_modifier : ML_Operation -> Result (option ML_Operation))
    (backup op' : ML_CG_Operator) :
    optree_modifier optree = Ok None ->
    falls_back_to optree backup op' ->
    falls_back_to optree (ComplexOperator optree_modifier (Some backup)) op'.

(** ** [targets/riscv/riscv.py] *)

Definition rdcycleOperator : ML_CG_Operator :=
  AsmInlineOperator
    ("{" ++ nl ++
     "    unsigned long cycles;" ++ nl ++
     "    asm volatile (" ++ dq ++ "rdcycle %%0 " ++ dq ++ " : " ++ dq ++ "=r"
       ++ dq ++ " (cycles));" ++ nl ++
     "    %s = cycles;" ++ nl ++
     "}")
    [(0, FO_Result 0)] 0.

(** [RV_singleOpAsmTemplate(insn, regDst = "r", regSrc = "f")] *)
Definition RV_singleOpAsmTemplate (insn : string)
  (regDst0 regSrc0 : option string) : ML_CG_Operator :=
  let regDst := match regDst0 with Some r => r | None => "r" end in
  let regSrc := match regSrc0 with Some r => r | None => "f" end in
  AsmInlineOperator
    ("asm volatile (" ++ dq ++ insn ++ " %%0, %%1 " ++ dq ++ " : " ++ dq ++ "="
       ++ regDst ++ dq ++ " (%s) : " ++ dq ++ regSrc ++ dq ++ "(%s));" ++ nl)
    [(0, FO_Result 0); (1, FO_Arg 0)] 1.

(** [lowerConversion(intFormat, targetFormat)]: the returned modifier. *)
Definition lowerConversion (intFormat targetFormat : ML_Format)
  : ML_Operation -> Result (option ML_Operation) :=
  fun conv =>
    op ← get_input conv 0;
    mret (Some (mkConversion (mkConversion op intFormat) targetFormat)).

(** [type_strict_match(f1, .., fn)]: a key of the innermost level. *)
Inductive TypeSignature : Type :=
| type_strict_match (type_tuple : list ML_Format).

(** A code-generation table: operation class, then specifier ([None] is the
    wildcard), then shape predicate, then type signature.  The dictionaries
    are kept in source order. *)
Definition SignatureMap : Type := list (TypeSignature * ML_CG_Operator).
Definition PredicateMap : Type := list ((ML_Operation -> bool) * SignatureMap).
Definition SpecifierMap : Type := list (option Specifier * PredicateMap).
Definition CodeGenTable : Type := list (OpClass * SpecifierMap).

Definition rv64CCodeGenTable : CodeGenTable :=
  [ (SpecificOperation,
      [ (Some ReadTimeStamp,
          [ ((fun _ => true),
              [ (type_strict_match [ML_Int64], rdcycleOperator) ]) ]) ]);
    (NearestInteger,
      [ (None,
          [ ((fun optree => true),
              [ (type_strict_match [ML_Int32; ML_Binary32],
                  RV_singleOpAsmTemplate "fcvt.w.s" None None);
                (type_strict_match [ML_Binary32; ML_Binary32],
                  ComplexOperator (lowerConversion ML_Int32 ML_Binary32) None);
                (type_strict_match [ML_Int64; ML_Binary64],
                  RV_singleOpAsmTemplate "fcvt.l.d" None None);
                (type_strict_match [ML_Int32; ML_Binary64],
                  ComplexOperator (lowerConversion ML_Int64 ML_Int32) None);
                (type_strict_match [ML_Binary64; ML_Binary64],
                  ComplexOperator (lowerConversion ML_Int64 ML_Binary64) None)
              ]) ]) ])
  ].

(** [RISCV_RV64.code_generation_table]: one table per output language. *)
Definition RISCV_RV64_code_generation_table
  : list (CodeLanguage * CodeGenTable) :=
  [ (C_Code, rv64CCodeGenTable) ].

(** *** Resolution of a node in a table

    The lookup itself lives in the backend classes, outside the sources. *)

(** The formats a signature is matched against.  The table above lists the
    result format first (the entry for [fcvt.w.s], float to integer, is
    [(ML_Int32, ML_Binary32)]). *)
Definition node_interface (node : ML_Operation) : list (option ML_Format) :=
  get_precision node :: map get_precision (inputs node).

(** Modelled from the spec: a type signature accepts a format tuple by exact
    match, with no widening. *)
Definition type_signature_accepts (sig : TypeSignature)
  (interface : list (option ML_Format)) : bool :=
  match sig with
  | type_strict_match type_tuple => bool_decide (map Some type_tuple = interface)
  end.

(** Modelled from the spec: the failure of a resolution. *)
Definition UnresolvedOperatorError : PyExn :=
  Exception "UnresolvedOperatorError" "".

Definition or_unresolved {A} (o : option A) : Result A :=
  match o with Some a => Ok a | None => Raise UnresolvedOperatorError end.

(** Modelled from the spec: operator resolution.  The node's class is looked
    up, then its specifier with the wildcard entry as fallback, then the
    first shape predicate that holds of the node, then the signature that
    accepts the node's formats; a miss at any level is unresolved. *)
Definition resolve (node : ML_Operation) (table : CodeGenTable)
  : Result ML_CG_Operator :=
  by_class ← or_unresolved (snd <$> find (fun e => bool_decide (fst e = op_class node)) table);
  by_specifier ← or_unresolved
    (match find (fun e => bool_decide (fst e = specifier node)) by_class with
     | Some e => Some (snd e)
     | None => snd <$> find (fun e => bool_decide (fst e = None)) by_class
     end);
  by_shape ← or_unresolved (snd <$> find (fun e => fst e node) by_specifier);
  or_unresolved
    (snd <$> find (fun e => type_signature_accepts (fst e) (node_interface node))
                  by_shape).

(** ** The scoped emitter *)

(** Modelled from the spec: the code object of section 4.4 ([NestedCode] and
    [VHDLCodeObject] of [code_object.py] are missing from the sources).  It
    holds the set of required headers, a stack of scope buffers, innermost
    first, and the indentation depth.  Each piece of text is kept with the
    depth at which it was emitted; indentation white space is not
    rendered. *)
Record ScopedCode : Type := MkScopedCode {
  headers : list string;
  tablevel : nat;
  scopes : list (list (nat * string))
}.

(** Modelled from the spec: unbalanced scope nesting is a fatal error. *)
Definition UnbalancedScopeError : PyExn := Exception "UnbalancedScopeError" "".

(** Modelled from the spec: a fresh code object, with one open scope. *)
Definition sc_new : ScopedCode := MkScopedCode [] 0 [[]].

(** Modelled from the spec: requiring a header is an idempotent set
    insertion. *)
Definition sc_add_local_header (h : string) : Py ScopedCode unit := fun co =>
  (Ok tt,
   if existsb (String.eqb h) (headers co) then co
   else MkScopedCode (headers co ++ [h]) (tablevel co) (scopes co)).

(** Modelled from the spec: emitted text is appended to the buffer of the
    current scope. *)
Definition sc_emit (text : string) : Py ScopedCode unit := fun co =>
  match scopes co with
  | [] => (Raise UnbalancedScopeError, co)
  | current :: outer =>
      (Ok tt,
       MkScopedCode (headers co) (tablevel co)
         ((current ++ [(tablevel co, text)])%list :: outer))
  end.

(** Modelled from the spec: opening a scope pushes an empty buffer; [inc]
    tells whether the indentation grows. *)
Definition sc_open_level (inc : bool) : Py ScopedCode unit := fun co =>
  (Ok tt,
   MkScopedCode (headers co) (if inc then S (tablevel co) else tablevel co)
     ([] :: scopes co)).

(** Modelled from the spec: closing a scope hands its text to the enclosing
    scope; closing the outermost scope is the unbalanced-nesting error. *)
Definition sc_close_level (inc : bool) : Py ScopedCode unit := fun co =>
  match scopes co with
  | inner :: enclosing :: outer =>
      (Ok tt,
       MkScopedCode (headers co)
         (if inc then Nat.pred (tablevel co) else tablevel co)
         ((enclosing ++ inner)%list :: outer))
  | _ => (Raise UnbalancedScopeError, co)
  end.

(** Modelled from the spec: the scoped emitter as the code object the entity
    writes into. *)
#[global] Instance ScopedCode_interface : CodeObjectInterface ScopedCode := {
  NestedCode := fun _ _ _ => sc_new;
  add_local_header := sc_add_local_header;
  emit := sc_emit;
  open_level := sc_open_level;
  close_level := sc_close_level
}.

(** Everything emitted so far, outermost scope first. *)
Definition emitted (co : ScopedCode) : list (nat * string) :=
  concat (rev (scopes co)).

(** The text of a code object. *)
Definition code_text (co : ScopedCode) : string :=
  String.concat "" (map snd (emitted co)).

(** [s.endswith(suffix)]. *)
Definition ends_with (suffix s : string) : bool :=
  (len suffix <=? len s)%nat &&
  String.eqb (substring (len s - len suffix) (len suffix) s) suffix.

(** The code object after [texts] were emitted, in order, into its current
    scope. *)
Definition sc_append (texts : list string) (co : ScopedCode) : ScopedCode :=
  match scopes co with
  | [] => co
  | current :: outer =>
      MkScopedCode (headers co) (tablevel co)
        ((current ++ map (fun t => (tablevel co, t)) texts)%list :: outer)
  end.

(** A generator that renders every operation, present or not, as the given
    lines and returns the given reference. *)
Definition emitting_generator (texts : list string) (r : Ref)
  : CodeGenerator ScopedCode :=
  MkCodeGenerator (fun _ _ co => (Ok r, sc_append texts co)).

(** A generator that refuses a missing operation the way a method call on
    [None] does, and renders any present operation as [texts]. *)
Definition strict_generator (texts : list string) (r : Ref)
  : CodeGenerator ScopedCode :=
  MkCodeGenerator (fun optree _ co =>
    match optree with
    | None => (Raise (AttributeError "'NoneType' object has no attribute 'get_precision'"), co)
    | Some _ => (Ok r, sc_append texts co)
    end).

(** An inline-assembly backend that emits the template as it stands. *)
#[global] Instance verbatim_asm_backend : InlineAsmBackend ScopedCode unit :=
  fun template _ _ _ _ _ _ _ co => (Ok "asm_result", sc_append [template] co).

(** Code names for the examples: the format's own name. *)
Definition plain_code_name : FormatCodeName :=
  fun f _ =>
    match f with
    | ML_Int32 => "I32" | ML_Int64 => "I64"
    | ML_Binary32 => "F32" | ML_Binary64 => "F64"
    | ML_Custom n => n
    end.

(** ** Sequences of construction operations *)

Inductive EntityOp : Type :=
| Op_add_input_variable (nm : string) (vartype : option ML_Format)
| Op_add_output_variable (nm : string) (output_node : ML_Operation)
| Op_add_input_signal (nm : string) (signaltype : option ML_Format)
| Op_add_output_signal (nm : string) (output_node : ML_Operation)
| Op_start_new_stage
| Op_set_current_stage (stage_id : Z)
| Op_add_process (new_process : ML_Operation)
| Op_register_new_input_variable (new_input : ML_Operation)
| Op_clear_arg_list.

(** A method of the entity alone, run in a world. *)
Definition on_entity {A} (m : Py CodeEntity A) : Py World unit := fun w =>
  let '(r, self) := m (entity w) in
  ((fun _ => tt) <$> r, MkWorld (dyn_attribute_list w) self).

Definition step (op : EntityOp) : Py World unit :=
  match op with
  | Op_add_input_variable nm t => on_entity (add_input_variable nm t)
  | Op_add_output_variable nm n => on_entity (add_output_variable nm n)
  | Op_add_input_signal nm t => on_entity (add_input_signal nm t)
  | Op_add_output_signal nm n => on_entity (add_output_signal nm n)
  | Op_start_new_stage => start_new_stage
  | Op_set_current_stage k => set_current_stage k
  | Op_add_process p => on_entity (add_process p)
  | Op_register_new_input_variable n => on_entity (register_new_input_variable n)
  | Op_clear_arg_list => on_entity clear_arg_list
  end.

(** The operations in order; an exception ends the construction. *)
Fixpoint run (ops : list EntityOp) : Py World unit :=
  match ops with
  | [] => py_ret tt
  | op :: ops' => py_bind (step op) (fun _ => run ops')
  end.

Definition is_set_current_stage (op : EntityOp) : bool :=
  match op with Op_set_current_stage _ => true | _ => false end.

(** The registry tracks the stage: the entity's [init_stage] constructor and
    its [init_op] constructor are the two entries registered last, at the
    index the entity holds, and the declared default of [init_stage] is the
    current stage. *)
Definition registry_tracks_stage (w : World) : Prop :=
  exists earlier : list AttributeCtor,
    dyn_attribute_list w
      = (earlier ++ [MkAttributeCtor "init_stage" (AttrInt (current_stage (entity w)));
                     MkAttributeCtor "init_op" AttrNone])%list
    /\ init_stage_attribute (entity w) = length earlier.

(** ** The interface text as the specification words it *)

(** [portBlock]: empty without ports, else the joined port lines wrapped in
    a [port] clause. *)
Definition port_block_spec (lines : list string) : string :=
  match lines with
  | [] => ""
  | _ => "port (" ++ nl ++ "  " ++ join (";" ++ nl ++ "  ") lines ++ nl ++ ");"
  end.

Definition in_line_spec (port : string * string) : string :=
  fst port ++ " : in " ++ snd port.
Definition out_line_spec (port : string * string) : string :=
  fst port ++ " : out " ++ snd port.

(** Ports are given as pairs of a name and a format code. *)
Definition port_lines_spec (ins outs : list (string * string)) : list string :=
  (map in_line_spec ins ++ map out_line_spec outs)%list.

Definition entity_declaration_spec (nm : string)
  (ins outs : list (string * string)) : string :=
  "entity " ++ nm ++ " is " ++ nl ++ port_block_spec (port_lines_spec ins outs)
    ++ nl ++ "end " ++ nm ++ ";" ++ nl ++ nl.

Definition component_declaration_spec (nm : string)
  (ins outs : list (string * string)) : string :=
  "component " ++ nm ++ " " ++ nl ++ port_block_spec (port_lines_spec ins outs)
    ++ nl ++ "end component;" ++ nl ++ nl.

Section PortViews.
Context `{FormatCodeName}.

(** Name and format code of an input port whose format is resolved. *)
Definition input_port (lang : CodeLanguage) (inp : ML_Operation)
  : option (string * string) :=
  f ← get_precision inp;
  Some (format_s (get_tag inp), get_code_name f lang).

(** Name and format code of an output: a [ReferenceAssign] of a value to a
    port, with the format of the port or, failing that, of the value. *)
Definition output_port (lang : CodeLanguage) (out : ML_Operation)
  : option (string * string) :=
  if decide (op_class out = ReferenceAssignOp) then
    match inputs out with
    | port :: value :: _ =>
        f ← match get_precision port with
            | Some p => Some p
            | None => get_precision value
            end;
        Some (format_s (get_tag port), get_code_name f lang)
    | _ => None
    end
  else None.
(** Name and format code of an output as the component declaration reads
    them: the format must be the port's own. *)
Definition component_output_port (lang : CodeLanguage) (out : ML_Operation)
  : option (string * string) :=
  match inputs out with
  | port :: _ =>
      f ← get_precision port;
      Some (format_s (get_tag port), get_code_name f lang)
  | [] => None
  end.
End PortViews.

(** The language a declaration is rendered in. *)
Definition effective_language (self : CodeEntity)
  (language0 : option CodeLanguage) : CodeLanguage :=
  match language0 with None => language self | Some l => l end.

(** A generator whose own resolution of any operation fails. *)
Definition unresolving_generator : CodeGenerator ScopedCode :=
  MkCodeGenerator (fun _ _ co => (Raise UnresolvedOperatorError, co)).

(** The hardware trailer and the headers of a definition. *)
Definition architecture_trailer : string := "end architecture;" ++ nl.
Definition ieee_headers : list string :=
  ["ieee.std_logic_1164.all"; "ieee.std_logic_unsigned.all";
   "ieee.numeric_std.all"].

(** ** Further methods of [CodeEntity] *)

Definition KeyError (key : string) : PyExn := Exception "KeyError" key.

(** [self.output_map[name]]: [KeyError] on a name that is not bound. *)
Definition output_map_item (self : CodeEntity) (nm : string)
  : Result ML_Operation :=
  match dict_get nm (output_map self) with
  | Some out => Ok out
  | None => Raise (KeyError nm)
  end.

Definition get_output_value_by_name (self : CodeEntity) (nm : string)
  : Result ML_Operation :=
  out ← output_map_item self nm;
  get_value_from_output out.

Definition get_output_port_by_name (self : CodeEntity) (nm : string)
  : Result ML_Operation :=
  out ← output_map_item self nm;
  get_port_from_output out.

(** [[self.get_value_from_output(op) for op in self.get_output_assign()]] *)
Definition get_output_list (self : CodeEntity) : Result (list ML_Operation) :=
  mapM get_value_from_output (get_output_assign self).

(** [[self.get_port_from_output(op) for op in self.get_output_assign()]] *)
Definition get_output_port (self : CodeEntity) : Result (list ML_Operation) :=
  mapM get_port_from_output (get_output_assign self).

(** *** Shapes the construction operations maintain *)

(** An output entry as [add_output_variable] and [add_output_signal] build
    it: the assignment of a value to a leaf port that is tagged with the
    entry's name, has the format of the value and is an output. *)
Definition output_entry_well_formed (entry : string * ML_Operation) : Prop :=
  exists port value : ML_Operation,
    snd entry = mkReferenceAssign port value
    /\ get_tag port = Some (fst entry)
    /\ get_precision port = get_precision value
    /\ var_type port = Some Output
    /\ inputs port = [].

Definition outputs_well_formed (self : CodeEntity) : Prop :=
  NoDup (map fst (output_map self))
  /\ Forall output_entry_well_formed (output_map self).

(** Every node the name-to-node map holds carries the tag it is filed
    under. *)
Definition arg_map_tagged (self : CodeEntity) : Prop :=
  map_Forall (fun t n => get_tag n = t) (arg_map self).

(** Every node the name-to-node map holds is in the argument list. *)
Definition arg_map_listed (self : CodeEntity) : Prop :=
  map_Forall (fun _ n => n ∈ arg_list self) (arg_map self).

Definition is_stage_op (op : EntityOp) : bool :=
  match op with
  | Op_start_new_stage | Op_set_current_stage _ => true
  | _ => false
  end.

Definition is_clear_arg_list (op : EntityOp) : bool :=
  match op with Op_clear_arg_list => true | _ => false end.

(** The process an operation adds, if it adds one. *)
Definition process_of (op : EntityOp) : option ML_Operation :=
  match op with Op_add_process p => Some p | _ => None end.

(** The output entry an operation registers when it succeeds. *)
Definition output_entry_of (op : EntityOp) : option (string * ML_Operation) :=
  match op with
  | Op_add_output_variable nm n =>
      Some (nm, mkReferenceAssign
                  (mkVariable nm (get_precision n) (Some Output)) n)
  | Op_add_output_signal nm n =>
      Some (nm, mkReferenceAssign
                  (mkSignal nm (get_precision n) (Some Output)) n)
  | _ => None
  end.

(** ** Further definitions of [targets/riscv/riscv.py] *)

(** [Log.report(Log.Error, msg)]: [Log] is imported from [utility.log_report],
    outside the sources.  The report either returns or raises: a
    parameter. *)
Class Logger : Type :=
  Log_report_Error : string -> Result unit.

(** Reading a local variable that no assignment has bound. *)
Definition UnboundLocalError (variable : string) : PyExn :=
  Exception "UnboundLocalError" variable.

(** [os.environ[key]] inside [try: x = os.environ[key]] with a handler that
    reports [msg]: the variable [x] is bound, or the handler ran and left it
    unbound. *)
Definition environ_or_report `{Logger} (environ : gmap string string)
  (key msg : string) : Result (option string) :=
  match environ !! key with
  | Some v => Ok (Some v)
  | None => _ ← Log_report_Error msg; Ok None
  end.

(** Reading the local variable [variable]. *)
Definition read_local (variable : string) (value : option string)
  : Result string :=
  match value with
  | Some v => Ok v
  | None => Raise (UnboundLocalError variable)
  end.

Definition buildRVCompilerPath `{Logger} (environ : gmap string string)
  : Result string :=
  RISCV ← environ_or_report environ "RISCV"
    "RISCV env variable must be set such than $RISCV/bin/riscv64-unknown-elf-gcc is accessible";
  RISCV ← read_local "RISCV" RISCV;
  let compiler := RISCV ++ "/bin/riscv64-unknown-elf-gcc" in
  Ok compiler.

(** [RISCV_RV64.get_execution_command(test_file)] *)
Definition get_execution_command `{Logger} (environ : gmap string string)
  (test_file : string) : Result string :=
  pk_bin ← environ_or_report environ "PK_BIN"
    "PK_BIN env var must point to proxy-kernel image";
  spike_bin ← environ_or_report environ "SPIKE_BIN"
    "SPIKE_BIN env var must point to spike simulator binary";
  spike_bin ← read_local "spike_bin" spike_bin;
  pk_bin ← read_local "pk_bin" pk_bin;
  let cmd := spike_bin ++ " --isa=RV64gc " ++ pk_bin ++ "  " ++ test_file in
  Ok cmd.

(** [RISCV_RV64.get_compilation_options(ML_SRC_DIR)], over the options of
    the parent class [VectorBackend], which is outside the sources. *)
Definition get_compilation_options (super_get_compilation_options : string -> list string)
  (ML_SRC_DIR : string) : list string :=
  (super_get_compilation_options ML_SRC_DIR ++ ["-march=rv64gc"])%list.

(** The signature entries of a table, in source order. *)
Definition table_entries (table : CodeGenTable)
  : list (TypeSignature * ML_CG_Operator) :=
  flat_map (fun by_class =>
    flat_map (fun by_specifier =>
      flat_map (fun by_shape => snd by_shape) (snd by_specifier))
      (snd by_class)) table.

(** A logger whose error report is fatal, and one that only records. *)
Definition fatal_logger : Logger :=
  fun msg => Raise (Exception "LogError" msg).
Definition quiet_logger : Logger := fun _ => Ok tt.

(** ** Example entities *)

(** A value node of a given format. *)
Definition value_node (cls : string) (p : option ML_Format) : ML_Operation :=
  MkOp (OtherOp cls) None [] p None None.

(** [CodeEntity("foo")]: no port. *)
Definition foo_entity : CodeEntity :=
  entity (CodeEntity_init "foo" None None None []).

(** The construction of [adder]: inputs [a], [b] and output [s]. *)
Definition adder_ops : list EntityOp :=
  [ Op_add_input_signal "a" (Some ML_Binary32);
    Op_add_input_signal "b" (Some ML_Binary32);
    Op_add_output_signal "s" (value_node "Addition" (Some ML_Binary32)) ].

Definition adder_entity : CodeEntity :=
  entity (snd (run adder_ops (CodeEntity_init "adder" None None None []))).

(** [CodeEntity("foo", output_map = {"s": ReferenceAssign(Signal("s",
    var_type = Signal.Output), value)})]: the port has no format of its own,
    the value assigned to it has one. *)
Definition unformatted_port_entity : CodeEntity :=
  entity (CodeEntity_init "foo" None
            (Some [("s", mkReferenceAssign (mkSignal "s" None (Some Output))
                           (value_node "Addition" (Some ML_Binary32)))])
            None []).

(** A modifier that never finds a replacement. *)
Definition no_rewrite : ML_Operation -> Result (option ML_Operation) :=
  fun _ => Ok None.

(** A [NearestInteger] node from binary64 to binary64. *)
Definition nearest_integer_f64 : ML_Operation :=
  MkOp NearestInteger None [mkVariable "x" (Some ML_Binary64) None]
       (Some ML_Binary64) None None.

(** An entity with an input whose format is unresolved. *)
Definition unformatted_input_entity : CodeEntity :=
  entity (snd (run [ Op_add_input_signal "a" (Some ML_Binary32);
                     Op_add_input_signal "clk" None ]
                   (CodeEntity_init "foo" None None None []))).

(** A generator that writes [texts] and then fails with [e]. *)
Definition failing_generator (texts : list string) (e : PyExn)
  : CodeGenerator ScopedCode :=
  MkCodeGenerator (fun _ _ co => (Raise e, sc_append texts co)).

(** Two complex operators that find nothing, backed by the cycle counter. *)
Definition backed_chain : ML_CG_Operator :=
  ComplexOperator no_rewrite
    (Some (ComplexOperator no_rewrite (Some rdcycleOperator))).

(** Two complex operators that find nothing, the second without backup. *)
Definition unbacked_chain : ML_CG_Operator :=
  ComplexOperator no_rewrite (Some (ComplexOperator no_rewrite None)).

(** A construction that interleaves processes, ports and stages. *)
Definition interleaved_ops : list EntityOp :=
  [ Op_add_output_signal "s" (value_node "Addition" (Some ML_Binary32));
    Op_add_process (value_node "Process" None);
    Op_start_new_stage;
    Op_add_input_signal "a" (Some ML_Binary32);
    Op_add_output_variable "t" (value_node "Subtraction" (Some ML_Binary64));
    Op_add_process (value_node "Clock" None) ].

(** * Properties *)

(** ** Text and monad helpers *)

Lemma len_append (s1 s2 : string) : len (s1 ++ s2) = (len s1 + len s2)%nat.
Proof.
  unfold len. induction s1 as [|c s1 IH]; simpl; [reflexivity|].
  now rewrite IH.
Qed.

Lemma join_cons_len (sep x : string) (xs : list string) :
  (len x <= len (join sep (x :: xs)))%nat.
Proof.
  unfold join. destruct xs as [|y ys]; simpl; [lia|].
  rewrite len_append. lia.
Qed.

Lemma port_desc_is_port_block (lines : list string) :
  Forall (fun l => (0 < len l)%nat) lines ->
  (if Nat.eqb (len (join (";" ++ nl ++ "  ") lines)) 0 then ""
   else "port (" ++ nl ++ "  " ++ join (";" ++ nl ++ "  ") lines ++ nl ++ ");")
  = port_block_spec lines.
Proof.
  intros Hne. destruct lines as [|x xs]; [reflexivity|].
  inversion Hne as [|? ? Hx _]; subst.
  pose proof (join_cons_len (";" ++ nl ++ "  ") x xs) as Hle.
  destruct (Nat.eqb_spec (len (join (";" ++ nl ++ "  ") (x :: xs))) 0) as [E|E];
    [lia | reflexivity].
Qed.

Lemma in_line_spec_len (p : string * string) : (0 < len (in_line_spec p))%nat.
Proof.
  unfold in_line_spec. rewrite !len_append. unfold len at 2. simpl. lia.
Qed.

Lemma out_line_spec_len (p : string * string) : (0 < len (out_line_spec p))%nat.
Proof.
  unfold out_line_spec. rewrite !len_append. unfold len at 2. simpl. lia.
Qed.

Lemma port_lines_spec_len (ins outs : list (string * string)) :
  Forall (fun l => (0 < len l)%nat) (port_lines_spec ins outs).
Proof.
  unfold port_lines_spec. apply Forall_app. split; apply Forall_fmap, Forall_true.
  - intros p. apply in_line_spec_len.
  - intros p. apply out_line_spec_len.
Qed.

(** [mapM] in [Result] succeeds with the element-wise results when every
    element does. *)
Lemma mapM_Result_Ok {A B} (f : A -> Result B) (l : list A) (k : list B) :
  Forall2 (fun x y => f x = Ok y) l k -> mapM f l = Ok k.
Proof.
  induction 1 as [|x y l k Hxy _ IH]; simpl; [reflexivity|].
  rewrite Hxy. simpl. rewrite IH. reflexivity.
Qed.

(** The first failing element decides the failure of [mapM]. *)
Lemma mapM_Result_Raise {A B} (f : A -> Result B) (l1 l2 : list A)
  (k : list B) (x : A) (e : PyExn) :
  Forall2 (fun x y => f x = Ok y) l1 k -> f x = Raise e ->
  mapM f (l1 ++ x :: l2) = Raise e.
Proof.
  induction 1 as [|x' y l k Hxy _ IH]; simpl; intros Hx.
  - rewrite Hx. reflexivity.
  - rewrite Hxy. simpl. rewrite IH by assumption. reflexivity.
Qed.

Lemma mapM_Result_app {A B} (f : A -> Result B) (l1 l2 : list A)
  (k1 k2 : list B) :
  mapM f l1 = Ok k1 -> mapM f l2 = Ok k2 -> mapM f (l1 ++ l2) = Ok (k1 ++ k2)%list.
Proof.
  revert k1. induction l1 as [|x l1 IH]; simpl; intros k1 H1 H2.
  - injection H1 as <-. exact H2.
  - destruct (f x) as [y|e]; simpl in *; [|discriminate].
    destruct (mapM f l1) as [k|e]; simpl in *; [|discriminate].
    injection H1 as <-. rewrite (IH k eq_refl H2). reflexivity.
Qed.

Section DeclarationProperties.
Context `{FormatCodeName}.

Lemma input_port_line_view lang inp p :
  input_port lang inp = Some p -> input_port_line lang inp = Ok (in_line_spec p).
Proof.
  unfold input_port, input_port_line, call_get_code_name.
  destruct (get_precision inp) as [f|]; simpl; [|discriminate].
  intros [= <-]. reflexivity.
Qed.

Lemma output_port_line_view lang out p :
  output_port lang out = Some p ->
  output_port_line lang out = Ok (out_line_spec p).
Proof.
  unfold output_port, output_port_line, get_port_from_output,
    get_output_precision, get_input, call_get_code_name.
  destruct (decide (op_class out = ReferenceAssignOp)) as [_|]; [|discriminate].
  destruct (inputs out) as [|port [|value rest]]; simpl; try discriminate.
  destruct (get_precision port) as [f|]; simpl.
  - intros [= <-]. reflexivity.
  - destruct (get_precision value) as [f|]; simpl; [|discriminate].
    intros [= <-]. reflexivity.
Qed.

Lemma input_lines_view lang (l : list ML_Operation) ins :
  mapM (input_port lang) l = Some ins ->
  mapM (input_port_line lang) l = Ok (map in_line_spec ins).
Proof.
  intros Hv. apply mapM_Result_Ok. apply mapM_Some in Hv.
  apply Forall2_fmap_r. eapply Forall2_impl; [exact Hv|].
  intros x y. apply input_port_line_view.
Qed.

Lemma output_lines_view lang (l : list ML_Operation) outs :
  mapM (output_port lang) l = Some outs ->
  mapM (output_port_line lang) l = Ok (map out_line_spec outs).
Proof.
  intros Hv. apply mapM_Result_Ok. apply mapM_Some in Hv.
  apply Forall2_fmap_r. eapply Forall2_impl; [exact Hv|].
  intros x y. apply output_port_line_view.
Qed.

(** C2.  For every entity whose ports have a name and a format code (every
    input has a resolved format; every output is a [ReferenceAssign] whose
    port, or else whose value, has one), [get_declaration] returns
    [entity <name> is \n<portBlock>\nend <name>;\n\n], where the port
    block is empty when there is no port and is otherwise the [port (...)]
    clause around one [<name> : in <code>] line per input followed by one
    [<name> : out <code>] line per output, joined by [;\n  ]. *)
Theorem get_declaration_text (self : CodeEntity) (final : bool)
  (language0 : option CodeLanguage) (ins outs : list (string * string)) :
  mapM (input_port (effective_language self language0)) (arg_list self)
    = Some ins ->
  mapM (output_port (effective_language self language0))
       (get_output_assign self) = Some outs ->
  get_declaration self final language0
    = Ok (entity_declaration_spec (name self) ins outs).
Proof.
  intros Hin Hout. unfold get_declaration.
  fold (effective_language self language0).
  rewrite (input_lines_view _ _ _ Hin). simpl.
  rewrite (output_lines_view _ _ _ Hout). simpl.
  fold (port_lines_spec ins outs).
  rewrite (port_desc_is_port_block _ (port_lines_spec_len ins outs)).
  reflexivity.
Qed.
End DeclarationProperties.

Section ComponentDeclarationProperties.
Context `{FormatCodeName}.

Lemma component_output_port_line_view lang out p :
  component_output_port lang out = Some p ->
  component_output_port_line lang out = Ok (out_line_spec p).
Proof.
  unfold component_output_port, component_output_port_line,
    get_port_from_output, get_input, call_get_code_name.
  destruct (inputs out) as [|port rest]; simpl; [discriminate|].
  destruct (get_precision port) as [f|]; simpl; [|discriminate].
  intros [= <-]. reflexivity.
Qed.

(** Where every output port carries its own format, the component
    declaration is the component wrapper around the port block of the
    entity declaration. *)
Lemma get_component_declaration_text (self : CodeEntity) (final : bool)
  (language0 : option CodeLanguage) (ins outs : list (string * string)) :
  mapM (input_port (effective_language self language0)) (arg_list self)
    = Some ins ->
  mapM (output_port (effective_language self language0))
       (get_output_assign self) = Some outs ->
  Forall (fun out => forall port, inputs out !! 0 = Some port ->
                                  is_Some (get_precision port))
         (get_output_assign self) ->
  get_component_declaration self final language0
    = Ok (component_declaration_spec (name self) ins outs).
Proof.
  intros Hin Hout Hown. unfold get_component_declaration.
  fold (effective_language self language0).
  rewrite (input_lines_view _ _ _ Hin). simpl.
  assert (mapM (component_output_port_line (effective_language self language0))
            (get_output_assign self) = Ok (map out_line_spec outs)) as ->.
  { apply mapM_Result_Ok. apply mapM_Some in Hout.
    apply Forall2_fmap_r.
    revert Hown. induction Hout as [|out p l k Hp _ IH]; intros Hown;
      [constructor|].
    inversion Hown as [|? ? Hout_own Hrest]; subst.
    constructor; [|apply IH; exact Hrest].
    apply component_output_port_line_view.
    unfold output_port in Hp. unfold component_output_port.
    destruct (decide (op_class out = ReferenceAssignOp)); [|discriminate].
    destruct (inputs out) as [|port [|value rest]]; try discriminate.
    destruct (Hout_own port eq_refl) as [f Hf]. rewrite Hf in *.
    exact Hp. }
  simpl. fold (port_lines_spec ins outs).
  rewrite (port_desc_is_port_block _ (port_lines_spec_len ins outs)).
  reflexivity.
Qed.
End ComponentDeclarationProperties.

(** C7.  The component declaration is meant to carry the port block of the
    entity declaration.  On an output whose port has no format of its own
    while its value has one, [get_declaration] renders the line from the
    value's format (through [get_output_precision]) and
    [get_component_declaration], which reads the port's format only, raises
    [AttributeError]: the two port blocks are not identical. *)
Theorem component_declaration_misses_value_format :
  @get_declaration plain_code_name unformatted_port_entity false None
    = Ok ("entity foo is " ++ nl ++ "port (" ++ nl ++ "  s : out F32" ++ nl
          ++ ");" ++ nl ++ "end foo;" ++ nl ++ nl)
  /\ @get_component_declaration plain_code_name unformatted_port_entity false None
    = Raise (AttributeError "'NoneType' object has no attribute 'get_code_name'").
Proof. split; reflexivity. Qed.

(** ** Registration of ports *)

Lemma dict_get_set_eq {V} (k : string) (v : V) (d : list (string * V)) :
  dict_get k (dict_set k v d) = Some v.
Proof.
  induction d as [|[k' v'] d IH]; simpl.
  - now rewrite String.eqb_refl.
  - destruct (String.eqb k' k) eqn:E; simpl.
    + now rewrite String.eqb_refl.
    + now rewrite E.
Qed.

Lemma dict_in_set {V} (k : string) (v : V) (d : list (string * V)) :
  dict_in k (dict_set k v d) = true.
Proof. unfold dict_in. now rewrite dict_get_set_eq. Qed.

(** C3.  When the name is already bound in the output map, to the
    assignment registered first, [add_output_variable] and
    [add_output_signal] both fail with the fatal duplicate-name error and
    leave the entity as it was: the output map still binds the name to that
    first assignment. *)
Theorem add_output_duplicate_fails (self : CodeEntity) (nm : string)
  (first_assign output_node : ML_Operation) :
  dict_get nm (output_map self) = Some first_assign ->
  (fst (add_output_variable nm output_node self)
     = Raise (DuplicateOutputNameError nm)
   /\ snd (add_output_variable nm output_node self) = self
   /\ dict_get nm (output_map (snd (add_output_variable nm output_node self)))
      = Some first_assign)
  /\ (fst (add_output_signal nm output_node self)
        = Raise (DuplicateOutputNameError nm)
      /\ snd (add_output_signal nm output_node self) = self
      /\ dict_get nm (output_map (snd (add_output_signal nm output_node self)))
         = Some first_assign).
Proof.
  intros Hfirst.
  assert (dict_in nm (output_map self) = true) as Hin
    by (unfold dict_in; now rewrite Hfirst).
  unfold add_output_variable, add_output_signal, py_bind, Log_report_error,
    py_raise.
  rewrite Hin. simpl. repeat split; assumption.
Qed.

Lemma mapM_Result_elem {A B} (f : A -> Result B) (l : list A) (k : list B)
  (x : A) (y : B) :
  mapM f l = Ok k -> x ∈ l -> f x = Ok y -> y ∈ k.
Proof.
  revert k. induction l as [|a l IH]; intros k Hk Hx Hy.
  - inversion Hx.
  - simpl in Hk. destruct (f a) as [b|] eqn:Ea; simpl in Hk; [|discriminate].
    destruct (mapM f l) as [k'|] eqn:El; simpl in Hk; [|discriminate].
    injection Hk as <-. apply elem_of_cons in Hx as [->|Hx].
    + rewrite Hy in Ea. injection Ea as ->. apply elem_of_cons. now left.
    + apply elem_of_cons. right. now apply (IH k').
Qed.

(** C10.  Registering an input under the name of an input registered before
    does not fail: the new node is appended to the argument list, which
    keeps the old one, so the port lines of the declaration hold a line for
    each under that one name; the name-to-node map is overwritten, so
    [get_input_by_tag] returns the new node.  The same holds for
    [add_input_variable] and for [add_input_signal]. *)
Theorem add_input_duplicate_overwrites `{FormatCodeName} (self : CodeEntity)
  (nm : string) (old : ML_Operation) (old_format new_format : ML_Format)
  (lang : CodeLanguage) (lines : list string) :
  arg_map self !! Some nm = Some old ->
  old ∈ arg_list self ->
  get_tag old = Some nm ->
  get_precision old = Some old_format ->
  mapM (input_port_line lang) (arg_list self) = Ok lines ->
  (let new := mkVariable nm (Some new_format) None in
   let self' := snd (add_input_variable nm (Some new_format) self) in
   fst (add_input_variable nm (Some new_format) self) = Ok new
   /\ arg_list self' = (arg_list self ++ [new])%list
   /\ get_input_by_tag self' (Some nm) = Some new
   /\ mapM (input_port_line lang) (arg_list self')
      = Ok (lines ++ [in_line_spec (nm, get_code_name new_format lang)])%list
   /\ in_line_spec (nm, get_code_name old_format lang) ∈ lines)
  /\
  (let new := mkSignal nm (Some new_format) None in
   let self' := snd (add_input_signal nm (Some new_format) self) in
   fst (add_input_signal nm (Some new_format) self) = Ok new
   /\ arg_list self' = (arg_list self ++ [new])%list
   /\ get_input_by_tag self' (Some nm) = Some new
   /\ mapM (input_port_line lang) (arg_list self')
      = Ok (lines ++ [in_line_spec (nm, get_code_name new_format lang)])%list
   /\ in_line_spec (nm, get_code_name old_format lang) ∈ lines).
Proof.
  intros _ Hold Htag Hprec Hlines.
  assert (in_line_spec (nm, get_code_name old_format lang) ∈ lines) as Hline.
  { apply (mapM_Result_elem _ _ _ old _ Hlines Hold).
    unfold input_port_line, call_get_code_name. rewrite Hprec, Htag.
    reflexivity. }
  split; cbn zeta; simpl; (repeat split; try assumption).
  - unfold get_input_by_tag. simpl. now rewrite lookup_insert_eq.
  - apply mapM_Result_app; [assumption | reflexivity].
  - unfold get_input_by_tag. simpl. now rewrite lookup_insert_eq.
  - apply mapM_Result_app; [assumption | reflexivity].
Qed.

(** ** The pipeline stage *)

Lemma on_entity_stage {A} (m : Py CodeEntity A) (w : World) :
  current_stage (snd (m (entity w))) = current_stage (entity w) ->
  init_stage_attribute (snd (m (entity w))) = init_stage_attribute (entity w) ->
  current_stage (entity (snd (on_entity m w))) = current_stage (entity w)
  /\ init_stage_attribute (entity (snd (on_entity m w)))
     = init_stage_attribute (entity w)
  /\ dyn_attribute_list (snd (on_entity m w)) = dyn_attribute_list w.
Proof.
  unfold on_entity. destruct (m (entity w)) as [r self']. simpl. auto.
Qed.

(** An operation other than the two stage operations leaves the counter, the
    reference to the [init_stage] constructor and the registry as they were. *)
Lemma step_keeps_stage (op : EntityOp) (w : World) :
  op <> Op_start_new_stage -> is_set_current_stage op = false ->
  current_stage (entity (snd (step op w))) = current_stage (entity w)
  /\ init_stage_attribute (entity (snd (step op w)))
     = init_stage_attribute (entity w)
  /\ dyn_attribute_list (snd (step op w)) = dyn_attribute_list w.
Proof.
  intros Hns Hset.
  destruct op; try discriminate Hset; try congruence; unfold step;
    apply on_entity_stage; try reflexivity;
    unfold add_output_variable, add_output_signal, py_bind, Log_report_error,
      py_raise, py_ret;
    destruct (dict_in nm (output_map (entity w))); reflexivity.
Qed.

Lemma start_new_stage_or_not (op : EntityOp) :
  op = Op_start_new_stage \/ op <> Op_start_new_stage.
Proof. destruct op; (left; reflexivity) || (right; discriminate). Qed.

Lemma step_monotonic (op : EntityOp) (w : World) :
  is_set_current_stage op = false ->
  (current_stage (entity w) <= current_stage (entity (snd (step op w))))%Z.
Proof.
  intros Hset. destruct (start_new_stage_or_not op) as [->|Hns].
  - simpl. lia.
  - destruct (step_keeps_stage op w Hns Hset) as [-> _]. lia.
Qed.

Lemma run_monotonic (ops : list EntityOp) (w : World) :
  forallb (fun op => negb (is_set_current_stage op)) ops = true ->
  (current_stage (entity w) <= current_stage (entity (snd (run ops w))))%Z.
Proof.
  revert w. induction ops as [|op ops IH]; intros w Hops; simpl.
  - lia.
  - simpl in Hops. apply andb_prop in Hops as [Hop Hops].
    apply negb_true_iff in Hop.
    pose proof (step_monotonic op w Hop) as Hstep.
    unfold py_bind. destruct (step op w) as [[[]|e] w1]; simpl in *.
    + specialize (IH w1 Hops). lia.
    + exact Hstep.
Qed.

Lemma init_tracks_stage nm al om lang reg :
  registry_tracks_stage (CodeEntity_init nm al om lang reg).
Proof. exists reg. split; reflexivity. Qed.

Lemma set_current_stage_tracks (k : Z) (w : World) :
  registry_tracks_stage w -> registry_tracks_stage (snd (set_current_stage k w)).
Proof.
  intros [earlier [Hreg Hidx]]. exists earlier. unfold set_current_stage. simpl.
  split; [|exact Hidx].
  rewrite Hreg, Hidx.
  replace (length earlier) with (length earlier + 0)%nat by lia.
  rewrite alter_app_r. reflexivity.
Qed.

Lemma step_tracks_stage (op : EntityOp) (w : World) :
  registry_tracks_stage w -> registry_tracks_stage (snd (step op w)).
Proof.
  intros Hw.
  destruct (start_new_stage_or_not op) as [->|Hns];
    [apply set_current_stage_tracks; exact Hw|].
  destruct (is_set_current_stage op) eqn:Hset.
  - destruct op; try discriminate. apply set_current_stage_tracks; exact Hw.
  - destruct (step_keeps_stage op w Hns Hset) as (Hs & Hi & Hr).
    destruct Hw as [earlier [Hreg Hidx]]. exists earlier.
    rewrite Hs, Hi, Hr. auto.
Qed.

Lemma run_tracks_stage (ops : list EntityOp) (w : World) :
  registry_tracks_stage w -> registry_tracks_stage (snd (run ops w)).
Proof.
  revert w. induction ops as [|op ops IH]; intros w Hw; simpl; [exact Hw|].
  pose proof (step_tracks_stage op w Hw) as Hstep.
  unfold py_bind. destruct (step op w) as [[[]|e] w1]; simpl in *; auto.
Qed.

(** Under the invariant, the entity's reference designates the [init_stage]
    constructor with the current stage as default, and a node created now is
    given that stage. *)
Lemma tracked_stage_is_default (w : World) :
  registry_tracks_stage w ->
  dyn_attribute_list w !! init_stage_attribute (entity w)
    = Some (MkAttributeCtor "init_stage" (AttrInt (current_stage (entity w))))
  /\ Attributes_init (dyn_attribute_list w) !! "init_stage"
    = Some (AttrInt (current_stage (entity w))).
Proof.
  intros [earlier [Hreg Hidx]]. rewrite Hreg, Hidx. split.
  - now apply list_lookup_middle.
  - unfold Attributes_init. rewrite foldl_app. simpl.
    rewrite lookup_insert_ne by discriminate. now rewrite lookup_insert_eq.
Qed.

(** C8.  The stage counter of a new entity is 0; [start_new_stage] adds one
    to it; [set_current_stage k] makes it [k]; across any sequence of
    construction operations that does not call [set_current_stage] it never
    decreases; and after any sequence of operations, [set_current_stage]
    included, the default of the entity's registered [init_stage]
    constructor is the current stage, so that a node created at that point
    is tagged with it. *)
Theorem stage_counter_tracked (nm : string)
  (arg_list0 : option (list ML_Operation))
  (output_map0 : option (list (string * ML_Operation)))
  (language0 : option CodeLanguage) (registry : list AttributeCtor)
  (ops1 ops2 : list EntityOp) :
  forallb (fun op => negb (is_set_current_stage op)) ops2 = true ->
  let w0 := CodeEntity_init nm arg_list0 output_map0 language0 registry in
  let w1 := snd (run ops1 w0) in
  let w2 := snd (run ops2 w1) in
  current_stage (entity w0) = 0%Z
  /\ current_stage (entity (snd (start_new_stage w1)))
     = (current_stage (entity w1) + 1)%Z
  /\ (forall k, current_stage (entity (snd (set_current_stage k w1))) = k)
  /\ (current_stage (entity w1) <= current_stage (entity w2))%Z
  /\ dyn_attribute_list w1 !! init_stage_attribute (entity w1)
     = Some (MkAttributeCtor "init_stage" (AttrInt (current_stage (entity w1))))
  /\ Attributes_init (dyn_attribute_list w1) !! "init_stage"
     = Some (AttrInt (current_stage (entity w1))).
Proof.
  intros Hops w0 w1 w2.
  split; [reflexivity|]. split; [reflexivity|]. split; [reflexivity|].
  split; [apply run_monotonic; exact Hops|].
  apply tracked_stage_is_default, run_tracks_stage, init_tracks_stage.
Qed.

(** ** Complex operators *)

(** C1.  When the modifier finds no replacement and no backup operator is
    configured, [generate_expr] hands the missing replacement, [None], to the
    code generator's [generate_expr] and its outcome, value or exception, is
    the outcome of that call; the operator raises nothing of its own. *)
Theorem complex_operator_without_backup_delegates {CO PreProcess : Type}
  `{InlineAsmBackend CO PreProcess}
  (optree_modifier : ML_Operation -> Result (option ML_Operation))
  (code_generator : CodeGenerator CO) (optree : ML_Operation)
  (arg_tuple : list ML_Operation) (generate_pre_process : option PreProcess)
  (kwords : Kwords) (code_object : CO) :
  optree_modifier optree = Ok None ->
  generate_expr (ComplexOperator optree_modifier None) code_generator optree
    arg_tuple generate_pre_process kwords code_object
  = cg_generate_expr code_generator None kwords code_object.
Proof. intros Hnone. simpl. rewrite Hnone. reflexivity. Qed.

(** A replacement found by the modifier is what the code generator is asked
    to generate. *)
Lemma complex_operator_rewrites {CO PreProcess : Type}
  `{InlineAsmBackend CO PreProcess}
  (optree_modifier : ML_Operation -> Result (option ML_Operation))
  (backup_operator : option ML_CG_Operator)
  (code_generator : CodeGenerator CO) (optree new_optree : ML_Operation)
  (arg_tuple : list ML_Operation) (generate_pre_process : option PreProcess)
  (kwords : Kwords) (code_object : CO) :
  optree_modifier optree = Ok (Some new_optree) ->
  generate_expr (ComplexOperator optree_modifier backup_operator)
    code_generator optree arg_tuple generate_pre_process kwords code_object
  = cg_generate_expr code_generator (Some new_optree) kwords code_object.
Proof.
  intros Hsome. cbn [generate_expr]. rewrite Hsome.
  destruct backup_operator; reflexivity.
Qed.

(** Along a backup chain the node, the argument tuple and the code object
    reach the operator at the end of the chain unchanged. *)
Lemma generate_expr_falls_back {CO PreProcess : Type}
  `{InlineAsmBackend CO PreProcess}
  (op op' : ML_CG_Operator) (code_generator : CodeGenerator CO)
  (optree : ML_Operation) (arg_tuple : list ML_Operation)
  (generate_pre_process : option PreProcess) (kwords : Kwords)
  (code_object : CO) :
  falls_back_to optree op op' ->
  generate_expr op code_generator optree arg_tuple generate_pre_process kwords
    code_object
  = generate_expr op' code_generator optree arg_tuple generate_pre_process
      kwords code_object.
Proof.
  induction 1 as [op|optree_modifier backup op' Hnone _ IH]; [reflexivity|].
  rewrite <- IH. cbn [generate_expr]. rewrite Hnone.
  destruct backup; reflexivity.
Qed.

(** A chain that ends in a complex operator without backup whose modifier
    finds nothing either: the code generator receives the missing node. *)
Lemma exhausted_chain_delegates {CO PreProcess : Type}
  `{InlineAsmBackend CO PreProcess}
  (op : ML_CG_Operator)
  (last_modifier : ML_Operation -> Result (option ML_Operation))
  (code_generator : CodeGenerator CO)
  (optree : ML_Operation) (arg_tuple : list ML_Operation)
  (generate_pre_process : option PreProcess) (kwords : Kwords)
  (code_object : CO) :
  falls_back_to optree op (ComplexOperator last_modifier None) ->
  last_modifier optree = Ok None ->
  generate_expr op code_generator optree arg_tuple generate_pre_process kwords
    code_object
  = cg_generate_expr code_generator None kwords code_object.
Proof.
  intros Hchain Hnone.
  rewrite (generate_expr_falls_back _ _ _ _ _ _ _ _ Hchain).
  cbn [generate_expr]. rewrite Hnone. reflexivity.
Qed.

(** A modifier that raises lets its exception through; the code object is
    untouched. *)
Lemma complex_operator_modifier_raises {CO PreProcess : Type}
  `{InlineAsmBackend CO PreProcess}
  (optree_modifier : ML_Operation -> Result (option ML_Operation))
  (backup_operator : option ML_CG_Operator)
  (code_generator : CodeGenerator CO) (optree : ML_Operation)
  (arg_tuple : list ML_Operation) (generate_pre_process : option PreProcess)
  (kwords : Kwords) (code_object : CO) (e : PyExn) :
  optree_modifier optree = Raise e ->
  generate_expr (ComplexOperator optree_modifier backup_operator)
    code_generator optree arg_tuple generate_pre_process kwords code_object
  = (Raise e, code_object).
Proof. intros Hraise. cbn [generate_expr]. rewrite Hraise. reflexivity. Qed.

(** C4.  When the modifier finds no replacement and a backup operator is
    configured, [generate_expr] applies the backup operator to the original
    node: same code generator, code object, node, argument tuple,
    pre-processing callback and keywords.  What that comes to is fixed by
    the operator the backup chain ends in for this node.  An
    inline-assembly operator renders the original node itself, through its
    own [generate_expr], and the code generator, which owns the table
    resolution, is not called on the way.  A complex operator whose own
    modifier finds a replacement for the original node hands that
    replacement to the code generator; one whose modifier raises lets the
    exception out with the code object untouched; one that finds nothing
    and has no backup hands the missing node to the code generator. *)
Theorem complex_operator_uses_backup {CO PreProcess : Type}
  `{InlineAsmBackend CO PreProcess}
  (optree_modifier : ML_Operation -> Result (option ML_Operation))
  (backup_operator : ML_CG_Operator)
  (code_generator : CodeGenerator CO) (optree : ML_Operation)
  (arg_tuple : list ML_Operation) (generate_pre_process : option PreProcess)
  (kwords : Kwords) (code_object : CO) :
  optree_modifier optree = Ok None ->
  let result :=
    generate_expr (ComplexOperator optree_modifier (Some backup_operator))
      code_generator optree arg_tuple generate_pre_process kwords code_object in
  result
  = generate_expr backup_operator code_generator optree arg_tuple
      generate_pre_process kwords code_object
  /\ (forall template slots arity,
        falls_back_to optree backup_operator
          (AsmInlineOperator template slots arity) ->
        result
        = asm_generate_expr template slots arity code_generator optree
            arg_tuple generate_pre_process kwords code_object)
  /\ (forall last_modifier last_backup,
        falls_back_to optree backup_operator
          (ComplexOperator last_modifier last_backup) ->
        match last_modifier optree with
        | Raise e => result = (Raise e, code_object)
        | Ok (Some replacement) =>
            result
            = cg_generate_expr code_generator (Some replacement) kwords
                code_object
        | Ok None =>
            last_backup = None ->
            result = cg_generate_expr code_generator None kwords code_object
        end).
Proof.
  intros Hnone result.
  assert (result
          = generate_expr backup_operator code_generator optree arg_tuple
              generate_pre_process kwords code_object) as Hbackup.
  { subst result. cbn [generate_expr]. rewrite Hnone.
    destruct backup_operator; reflexivity. }
  split; [exact Hbackup|]. split.
  - intros template slots arity Hchain. rewrite Hbackup.
    rewrite (generate_expr_falls_back _ _ _ _ _ _ _ _ Hchain). reflexivity.
  - intros last_modifier last_backup Hchain. rewrite Hbackup.
    rewrite (generate_expr_falls_back _ _ _ _ _ _ _ _ Hchain).
    cbn [generate_expr].
    destruct (last_modifier optree) as [[replacement|]|e].
    + destruct last_backup; reflexivity.
    + intros ->. reflexivity.
    + reflexivity.
Qed.

(** ** The RISC-V table *)

(** C9.  In [rv64CCodeGenTable], a [NearestInteger] node of format binary64
    with one operand of format binary64 resolves to the complex operator
    built on [lowerConversion(ML_Int64, ML_Binary64)], with no backup; on
    that node the modifier returns the conversion to binary64 of the
    conversion to int64 of the node's operand, and generating the node is
    generating that pair of nested conversions. *)
Theorem rv64_nearest_integer_f64_lowering (node op : ML_Operation) :
  op_class node = NearestInteger ->
  get_precision node = Some ML_Binary64 ->
  inputs node = [op] ->
  get_precision op = Some ML_Binary64 ->
  resolve node rv64CCodeGenTable
    = Ok (ComplexOperator (lowerConversion ML_Int64 ML_Binary64) None)
  /\ lowerConversion ML_Int64 ML_Binary64 node
     = Ok (Some (mkConversion (mkConversion op ML_Int64) ML_Binary64))
  /\ (forall (CO PreProcess : Type) (backend : InlineAsmBackend CO PreProcess)
        (code_generator : CodeGenerator CO) (arg_tuple : list ML_Operation)
        (generate_pre_process : option PreProcess) (kwords : Kwords)
        (code_object : CO),
        generate_expr
          (ComplexOperator (lowerConversion ML_Int64 ML_Binary64) None)
          code_generator node arg_tuple generate_pre_process kwords code_object
        = cg_generate_expr code_generator
            (Some (mkConversion (mkConversion op ML_Int64) ML_Binary64))
            kwords code_object).
Proof.
  intros Hclass Hprec Hinputs Hop.
  assert (lowerConversion ML_Int64 ML_Binary64 node
          = Ok (Some (mkConversion (mkConversion op ML_Int64) ML_Binary64)))
    as Hlower.
  { unfold lowerConversion, get_input. rewrite Hinputs. reflexivity. }
  split; [|split; [exact Hlower|]].
  - unfold resolve, node_interface. rewrite Hclass, Hprec, Hinputs. simpl.
    rewrite Hop. destruct (specifier node) as [sp|]; reflexivity.
  - intros. cbn [generate_expr]. rewrite Hlower. reflexivity.
Qed.

(** ** Definitions of an entity, on the scoped emitter *)

Lemma append_empty (x : string) : x ++ "" = x.
Proof.
  induction x as [|c x IH]; [reflexivity|].
  change (String c (x ++ "") = String c x). now f_equal.
Qed.

Lemma concat_empty_cons (x : string) (l : list string) :
  String.concat "" (x :: l) = x ++ String.concat "" l.
Proof.
  destruct l as [|y l]; [|reflexivity].
  simpl. symmetry. apply append_empty.
Qed.

Lemma map_snd_tagged (d : nat) (texts : list string) :
  map snd (map (fun t => (d, t)) texts) = texts.
Proof. induction texts as [|t texts IH]; simpl; [reflexivity|]. now rewrite IH. Qed.

(** C5.  For every entity whose declaration renders and every generator that
    renders the body as [texts], [get_definition] returns a fresh code
    object holding the three [ieee] headers and, in its single scope, the
    entity declaration followed by the body generated in a nested scope that
    was closed again.  Nothing follows the body: the text of the object is
    the declaration followed by the body text, with no trailer. *)
Theorem get_definition_result `{FormatCodeName} (self : CodeEntity)
  (code_generator : CodeGenerator ScopedCode)
  (language0 : option CodeLanguage) (folded static_cst : bool)
  (decl : string) (texts : list string) (r : Ref) :
  get_declaration self false language0 = Ok decl ->
  (forall co,
     cg_generate_expr code_generator (Some (get_scheme self))
       (definition_kwords language0 folded) co
     = (Ok r, sc_append texts co)) ->
  get_definition self code_generator language0 folded static_cst
    = Ok (MkScopedCode ieee_headers 0
            [ (0, decl) :: map (fun t => (0, t)) texts ])
  /\ code_text (MkScopedCode ieee_headers 0
                  [ (0, decl) :: map (fun t => (0, t)) texts ])
     = decl ++ String.concat "" texts.
Proof.
  intros Hdecl Hgen. split.
  - unfold get_definition, py_bind, py_lift. rewrite Hdecl.
    cbn -[get_scheme definition_kwords]. rewrite Hgen. reflexivity.
  - unfold code_text, emitted. cbn [scopes rev concat app].
    rewrite app_nil_r. cbn [map snd].
    rewrite map_snd_tagged. apply concat_empty_cons.
Qed.

(** When the declaration does not render, neither does the definition. *)
Lemma get_definition_declaration_failure `{FormatCodeName} (self : CodeEntity)
  (code_generator : CodeGenerator ScopedCode)
  (language0 : option CodeLanguage) (folded static_cst : bool) (e : PyExn) :
  get_declaration self false language0 = Raise e ->
  get_definition self code_generator language0 folded static_cst = Raise e.
Proof.
  intros Hdecl. unfold get_definition, py_bind, py_lift. rewrite Hdecl.
  reflexivity.
Qed.

(** C6.  For every entity whose declaration renders, every generator that
    renders the body as [texts] and every supplied code object with an open
    scope, [add_definition] writes into that object, after what its current
    scope already holds: the entity declaration, the line
    [architecture rtl of <name> is], the body, generated in a nested scope
    one level deeper, and the trailer [end architecture;].  Headers, depth
    and enclosing scopes of the object are unchanged. *)
Theorem add_definition_result `{FormatCodeName} (self : CodeEntity)
  (code_generator : CodeGenerator ScopedCode)
  (language0 : option CodeLanguage) (folded static_cst : bool)
  (decl : string) (texts : list string) (r : Ref)
  (co : ScopedCode) (current : list (nat * string))
  (outer : list (list (nat * string))) :
  get_declaration self false language0 = Ok decl ->
  (forall co,
     cg_generate_expr code_generator (Some (get_scheme self))
       (definition_kwords language0 folded) co
     = (Ok r, sc_append texts co)) ->
  scopes co = current :: outer ->
  add_definition self code_generator language0 folded static_cst co
    = (Ok tt,
       MkScopedCode (headers co) (tablevel co)
         ((current
           ++ [(tablevel co, decl);
               (tablevel co, "architecture rtl of " ++ name self ++ " is" ++ nl)%string]
           ++ map (fun t => (S (tablevel co), t)) texts
           ++ [(tablevel co, architecture_trailer)])%list :: outer)).
Proof.
  intros Hdecl Hgen Hscopes. destruct co as [hs lvl sc]. simpl in Hscopes.
  subst sc. unfold add_definition, py_bind, py_lift. rewrite Hdecl.
  cbn -[get_scheme definition_kwords]. rewrite Hgen. cbn.
  do 2 f_equal. f_equal. rewrite <- !app_assoc. reflexivity.
Qed.

(** ** Instances and counterexamples *)

(** An entity without ports has no [port] clause. *)
Lemma get_declaration_no_ports `{FormatCodeName} (self : CodeEntity)
  (final : bool) (language0 : option CodeLanguage) :
  arg_list self = [] -> output_map self = [] ->
  get_declaration self final language0
    = Ok ("entity " ++ name self ++ " is " ++ nl ++ nl
          ++ "end " ++ name self ++ ";" ++ nl ++ nl).
Proof.
  intros Hargs Houts. unfold get_declaration, get_output_assign.
  rewrite Hargs, Houts. reflexivity.
Qed.

Example foo_declaration :
  @get_declaration plain_code_name foo_entity true None
    = Ok ("entity foo is " ++ nl ++ nl ++ "end foo;" ++ nl ++ nl).
Proof. reflexivity. Qed.

Lemma get_declaration_text_witness :
  mapM (@input_port plain_code_name (effective_language adder_entity None))
       (arg_list adder_entity) = Some [("a", "F32"); ("b", "F32")]
  /\ mapM (@output_port plain_code_name (effective_language adder_entity None))
          (get_output_assign adder_entity) = Some [("s", "F32")]
  /\ @get_declaration plain_code_name adder_entity true None
     = Ok ("entity adder is " ++ nl ++
           "port (" ++ nl ++
           "  a : in F32;" ++ nl ++
           "  b : in F32;" ++ nl ++
           "  s : out F32" ++ nl ++
           ");" ++ nl ++
           "end adder;" ++ nl ++ nl).
Proof.
  split; [reflexivity|]. split; [reflexivity|].
  exact (@get_declaration_text plain_code_name adder_entity true None
           [("a", "F32"); ("b", "F32")] [("s", "F32")] eq_refl eq_refl).
Defined.

Lemma add_output_duplicate_fails_witness :
  dict_get "s" (output_map adder_entity)
    = Some (mkReferenceAssign (mkSignal "s" (Some ML_Binary32) (Some Output))
              (value_node "Addition" (Some ML_Binary32)))
  /\ fst (add_output_signal "s" (value_node "Subtraction" (Some ML_Binary64))
            adder_entity)
     = Raise (DuplicateOutputNameError "s")
  /\ dict_get "s"
       (output_map
          (snd (add_output_signal "s"
                  (value_node "Subtraction" (Some ML_Binary64)) adder_entity)))
     = Some (mkReferenceAssign (mkSignal "s" (Some ML_Binary32) (Some Output))
               (value_node "Addition" (Some ML_Binary32))).
Proof.
  split; [reflexivity|].
  pose proof (add_output_duplicate_fails adder_entity "s"
                (mkReferenceAssign (mkSignal "s" (Some ML_Binary32) (Some Output))
                   (value_node "Addition" (Some ML_Binary32)))
                (value_node "Subtraction" (Some ML_Binary64)) eq_refl)
    as [_ [Hfail [_ Hkept]]].
  split; [exact Hfail | exact Hkept].
Defined.

Lemma add_input_duplicate_overwrites_witness :
  arg_map adder_entity !! Some "a" = Some (mkSignal "a" (Some ML_Binary32) None)
  /\ mkSignal "a" (Some ML_Binary32) None ∈ arg_list adder_entity
  /\ get_tag (mkSignal "a" (Some ML_Binary32) None) = Some "a"
  /\ get_precision (mkSignal "a" (Some ML_Binary32) None) = Some ML_Binary32
  /\ mapM (@input_port_line plain_code_name VHDL_Code) (arg_list adder_entity)
     = Ok ["a : in F32"; "b : in F32"]
  /\ get_input_by_tag
       (snd (add_input_signal "a" (Some ML_Binary64) adder_entity)) (Some "a")
     = Some (mkSignal "a" (Some ML_Binary64) None)
  /\ mapM (@input_port_line plain_code_name VHDL_Code)
       (arg_list (snd (add_input_signal "a" (Some ML_Binary64) adder_entity)))
     = Ok ["a : in F32"; "b : in F32"; "a : in F64"].
Proof.
  assert (arg_map adder_entity !! Some "a"
          = Some (mkSignal "a" (Some ML_Binary32) None)) as Hmap
    by (vm_compute; reflexivity).
  assert (mkSignal "a" (Some ML_Binary32) None ∈ arg_list adder_entity) as Hin
    by (apply list_elem_of_here).
  split; [exact Hmap|]. split; [exact Hin|].
  split; [reflexivity|]. split; [reflexivity|]. split; [reflexivity|].
  pose proof (@add_input_duplicate_overwrites plain_code_name adder_entity "a"
                (mkSignal "a" (Some ML_Binary32) None) ML_Binary32 ML_Binary64
                VHDL_Code ["a : in F32"; "b : in F32"]
                Hmap Hin eq_refl eq_refl eq_refl)
    as [_ (_ & _ & Htag & Hlines & _)].
  split; [exact Htag | exact Hlines].
Defined.

(** The declaration of [adder] after [a] was registered a second time. *)
Example duplicate_input_declaration :
  @get_declaration plain_code_name
    (snd (add_input_signal "a" (Some ML_Binary64) adder_entity)) true None
  = Ok ("entity adder is " ++ nl ++
        "port (" ++ nl ++
        "  a : in F32;" ++ nl ++
        "  b : in F32;" ++ nl ++
        "  a : in F64;" ++ nl ++
        "  s : out F32" ++ nl ++
        ");" ++ nl ++
        "end adder;" ++ nl ++ nl).
Proof. vm_compute. reflexivity. Qed.

Lemma stage_counter_tracked_witness :
  forallb (fun op => negb (is_set_current_stage op))
          (adder_ops ++ [Op_start_new_stage]) = true
  /\ (current_stage
        (entity (snd (run [Op_start_new_stage; Op_set_current_stage 5]
                        (CodeEntity_init "adder" None None None []))))
      <= current_stage
           (entity (snd (run (adder_ops ++ [Op_start_new_stage])
                           (snd (run [Op_start_new_stage; Op_set_current_stage 5]
                                   (CodeEntity_init "adder" None None None [])))))))%Z
  /\ Attributes_init
       (dyn_attribute_list
          (snd (run [Op_start_new_stage; Op_set_current_stage 5]
                  (CodeEntity_init "adder" None None None []))))
       !! "init_stage"
     = Some (AttrInt
               (current_stage
                  (entity (snd (run [Op_start_new_stage; Op_set_current_stage 5]
                                  (CodeEntity_init "adder" None None None [])))))).
Proof.
  split; [reflexivity|].
  pose proof (stage_counter_tracked "adder" None None None []
                [Op_start_new_stage; Op_set_current_stage 5]
                (adder_ops ++ [Op_start_new_stage]) eq_refl)
    as (_ & _ & _ & Hmono & _ & Htag).
  split; [exact Hmono | exact Htag].
Defined.

(** After [start_new_stage], [set_current_stage(0)] lowers the counter. *)
Lemma stage_counter_can_decrease :
  current_stage
    (entity (snd (run [Op_start_new_stage]
                    (CodeEntity_init "foo" None None None [])))) = 1%Z
  /\ current_stage
       (entity (snd (run [Op_start_new_stage; Op_set_current_stage 0]
                       (CodeEntity_init "foo" None None None [])))) = 0%Z
  /\ ~ (current_stage
          (entity (snd (run [Op_start_new_stage]
                          (CodeEntity_init "foo" None None None []))))
        <= current_stage
             (entity (snd (run [Op_set_current_stage 0]
                             (snd (run [Op_start_new_stage]
                                     (CodeEntity_init "foo" None None None [])))))))%Z.
Proof. split; [reflexivity|]. split; [reflexivity|]. simpl. lia. Qed.

Lemma complex_operator_without_backup_delegates_witness :
  no_rewrite nearest_integer_f64 = Ok None
  /\ @generate_expr ScopedCode unit verbatim_asm_backend
       (ComplexOperator no_rewrite None) (emitting_generator ["tmp := 0;"] "tmp")
       nearest_integer_f64 [] None [] sc_new
     = cg_generate_expr (emitting_generator ["tmp := 0;"] "tmp") None [] sc_new.
Proof.
  split; [reflexivity|].
  exact (@complex_operator_without_backup_delegates ScopedCode unit
           verbatim_asm_backend no_rewrite
           (emitting_generator ["tmp := 0;"] "tmp")
           nearest_integer_f64 [] None [] sc_new eq_refl).
Defined.

(** A complex operator whose modifier finds nothing and which has no backup
    does not raise [RewriteChainExhausted]: with a generator that rejects a
    missing operation the failure is the generator's [AttributeError], and
    with a generator that renders anything the call returns a reference and
    emits code, as if a replacement existed. *)
Lemma rewrite_exhaustion_not_reported :
  no_rewrite nearest_integer_f64 = Ok None
  /\ fst (@generate_expr ScopedCode unit verbatim_asm_backend
            (ComplexOperator no_rewrite None) (strict_generator [] "tmp")
            nearest_integer_f64 [] None [] sc_new)
     = Raise (AttributeError "'NoneType' object has no attribute 'get_precision'")
  /\ fst (@generate_expr ScopedCode unit verbatim_asm_backend
            (ComplexOperator no_rewrite None) (strict_generator [] "tmp")
            nearest_integer_f64 [] None [] sc_new)
     <> Raise RewriteChainExhausted
  /\ @generate_expr ScopedCode unit verbatim_asm_backend
       (ComplexOperator no_rewrite None) (emitting_generator ["tmp := 0;"] "tmp")
       nearest_integer_f64 [] None [] sc_new
     = (Ok "tmp", MkScopedCode [] 0 [[(0, "tmp := 0;")]]).
Proof.
  split; [reflexivity|]. split; [reflexivity|]. split; [|reflexivity].
  simpl. unfold RewriteChainExhausted, AttributeError. intros E.
  discriminate E.
Qed.

Lemma complex_operator_uses_backup_witness :
  no_rewrite nearest_integer_f64 = Ok None
  /\ falls_back_to nearest_integer_f64 rdcycleOperator
       (AsmInlineOperator
          ("{" ++ nl ++
           "    unsigned long cycles;" ++ nl ++
           "    asm volatile (" ++ dq ++ "rdcycle %%0 " ++ dq ++ " : " ++ dq
             ++ "=r" ++ dq ++ " (cycles));" ++ nl ++
           "    %s = cycles;" ++ nl ++
           "}")
          [(0, FO_Result 0)] 0)
  /\ @generate_expr ScopedCode unit verbatim_asm_backend
       (ComplexOperator no_rewrite (Some rdcycleOperator)) unresolving_generator
       nearest_integer_f64 [] None [] sc_new
     = (Ok "asm_result",
        MkScopedCode [] 0
          [[(0, "{" ++ nl ++
                "    unsigned long cycles;" ++ nl ++
                "    asm volatile (" ++ dq ++ "rdcycle %%0 " ++ dq ++ " : "
                  ++ dq ++ "=r" ++ dq ++ " (cycles));" ++ nl ++
                "    %s = cycles;" ++ nl ++
                "}")]]).
Proof.
  split; [reflexivity|]. split; [apply falls_back_here|].
  exact (proj1 (proj2
           (@complex_operator_uses_backup ScopedCode unit verbatim_asm_backend
              no_rewrite rdcycleOperator unresolving_generator
              nearest_integer_f64 [] None [] sc_new eq_refl))
           _ _ _ (falls_back_here nearest_integer_f64 rdcycleOperator)).
Defined.

(** With a generator whose own resolution always fails, the backup operator
    still renders the node: the generator was not asked. *)
Example backup_bypasses_resolution :
  fst (@generate_expr ScopedCode unit verbatim_asm_backend
         (ComplexOperator no_rewrite (Some rdcycleOperator)) unresolving_generator
         nearest_integer_f64 [] None [] sc_new)
  = Ok "asm_result".
Proof. reflexivity. Qed.

Lemma rv64_nearest_integer_f64_lowering_witness :
  op_class nearest_integer_f64 = NearestInteger
  /\ get_precision nearest_integer_f64 = Some ML_Binary64
  /\ inputs nearest_integer_f64 = [mkVariable "x" (Some ML_Binary64) None]
  /\ get_precision (mkVariable "x" (Some ML_Binary64) None) = Some ML_Binary64
  /\ resolve nearest_integer_f64 rv64CCodeGenTable
     = Ok (ComplexOperator (lowerConversion ML_Int64 ML_Binary64) None)
  /\ lowerConversion ML_Int64 ML_Binary64 nearest_integer_f64
     = Ok (Some (mkConversion
                   (mkConversion (mkVariable "x" (Some ML_Binary64) None) ML_Int64)
                   ML_Binary64)).
Proof.
  do 4 (split; [reflexivity|]).
  pose proof (rv64_nearest_integer_f64_lowering nearest_integer_f64
                (mkVariable "x" (Some ML_Binary64) None)
                eq_refl eq_refl eq_refl eq_refl) as (Hres & Hlow & _).
  split; [exact Hres | exact Hlow].
Defined.

Lemma get_definition_result_witness :
  @get_declaration plain_code_name adder_entity false None
    = Ok (entity_declaration_spec "adder" [("a", "F32"); ("b", "F32")]
            [("s", "F32")])
  /\ (forall co,
        cg_generate_expr (emitting_generator ["s <= a + b;"] "s")
          (Some (get_scheme adder_entity)) (definition_kwords None true) co
        = (Ok "s", sc_append ["s <= a + b;"] co))
  /\ @get_definition plain_code_name ScopedCode ScopedCode_interface
       adder_entity (emitting_generator ["s <= a + b;"] "s") None true false
     = Ok (MkScopedCode ieee_headers 0
             [[(0, entity_declaration_spec "adder" [("a", "F32"); ("b", "F32")]
                     [("s", "F32")]);
               (0, "s <= a + b;")]]).
Proof.
  split; [reflexivity|]. split; [intros co; reflexivity|].
  exact (proj1 (@get_definition_result plain_code_name adder_entity
                  (emitting_generator ["s <= a + b;"] "s") None true false
                  (entity_declaration_spec "adder" [("a", "F32"); ("b", "F32")]
                     [("s", "F32")])
                  ["s <= a + b;"] "s" eq_refl (fun co => eq_refl))).
Defined.

(** The text [get_definition] produces does not end with the trailer: for
    [foo], whose body is empty, it is the declaration alone; for [adder] it
    ends with the body. *)
Lemma get_definition_no_trailer :
  (exists co,
     @get_definition plain_code_name ScopedCode ScopedCode_interface
       foo_entity (emitting_generator [] "") None true false = Ok co
     /\ code_text co = "entity foo is " ++ nl ++ nl ++ "end foo;" ++ nl ++ nl
     /\ ends_with architecture_trailer (code_text co) = false)
  /\ (exists co,
        @get_definition plain_code_name ScopedCode ScopedCode_interface
          adder_entity (emitting_generator ["s <= a + b;"] "s") None true false
        = Ok co
        /\ ends_with "s <= a + b;" (code_text co) = true
        /\ ends_with architecture_trailer (code_text co) = false).
Proof.
  split; eexists; (split; [reflexivity|]); split; vm_compute; reflexivity.
Qed.

Lemma add_definition_result_witness :
  @get_declaration plain_code_name adder_entity false None
    = Ok (entity_declaration_spec "adder" [("a", "F32"); ("b", "F32")]
            [("s", "F32")])
  /\ (forall co,
        cg_generate_expr (emitting_generator ["s <= a + b;"] "s")
          (Some (get_scheme adder_entity)) (definition_kwords None true) co
        = (Ok "s", sc_append ["s <= a + b;"] co))
  /\ scopes sc_new = [] :: []
  /\ @add_definition plain_code_name ScopedCode ScopedCode_interface
       adder_entity (emitting_generator ["s <= a + b;"] "s") None true false
       sc_new
     = (Ok tt,
        MkScopedCode [] 0
          [[(0, entity_declaration_spec "adder" [("a", "F32"); ("b", "F32")]
                  [("s", "F32")]);
            (0, "architecture rtl of adder is" ++ nl);
            (1, "s <= a + b;");
            (0, architecture_trailer)]]).
Proof.
  split; [reflexivity|]. split; [intros co; reflexivity|].
  split; [reflexivity|].
  exact (@add_definition_result plain_code_name adder_entity
           (emitting_generator ["s <= a + b;"] "s") None true false
           (entity_declaration_spec "adder" [("a", "F32"); ("b", "F32")]
              [("s", "F32")])
           ["s <= a + b;"] "s" sc_new [] [] eq_refl (fun co => eq_refl) eq_refl).
Defined.

(** [add_definition] does emit the entity declaration: it is the first text
    written into the supplied code object. *)
Lemma add_definition_emits_declaration :
  exists decl co,
    @get_declaration plain_code_name foo_entity false None = Ok decl
    /\ @add_definition plain_code_name ScopedCode ScopedCode_interface
         foo_entity (emitting_generator [] "") None true false sc_new
       = (Ok tt, co)
    /\ emitted co
       = [(0, decl); (0, "architecture rtl of foo is" ++ nl);
          (0, architecture_trailer)]
    /\ In decl (map snd (emitted co)).
Proof.
  eexists. eexists. split; [reflexivity|]. split; [reflexivity|].
  split; [reflexivity|]. left. reflexivity.
Qed.

(** * Further properties of the sources *)

(** ** Registration of outputs *)

Lemma dict_in_false_not_key {V} (k : string) (d : list (string * V)) :
  dict_in k d = false -> k ∉ map fst d.
Proof.
  unfold dict_in. induction d as [|[k' v'] d IH]; simpl; intros Hin Hk.
  - inversion Hk.
  - destruct (String.eqb_spec k' k) as [->|Hne]; [discriminate|].
    apply elem_of_cons in Hk as [->|Hk]; [congruence|]. now apply IH.
Qed.

Lemma dict_set_fresh {V} (k : string) (v : V) (d : list (string * V)) :
  dict_in k d = false -> dict_set k v d = (d ++ [(k, v)])%list.
Proof.
  unfold dict_in. induction d as [|[k' v'] d IH]; simpl; intros Hin;
    [reflexivity|].
  destruct (String.eqb k' k); [discriminate|]. now rewrite IH.
Qed.

Lemma dict_get_app_fresh {V} (k k' : string) (v : V) (d : list (string * V)) :
  dict_get k' (d ++ [(k, v)])%list
  = match dict_get k' d with
    | Some x => Some x
    | None => if String.eqb k k' then Some v else None
    end.
Proof.
  induction d as [|[k0 v0] d IH]; simpl; [reflexivity|].
  destruct (String.eqb k0 k'); [reflexivity | exact IH].
Qed.

(** X1.  Registering an output under a name that is not bound succeeds with
    either method: the new assignment becomes the last entry of the output
    map, so earlier outputs keep their order and their bindings. *)
Theorem add_output_fresh_registers (self : CodeEntity) (nm : string)
  (output_node : ML_Operation) :
  dict_in nm (output_map self) = false ->
  (fst (add_output_variable nm output_node self) = Ok tt
   /\ output_map (snd (add_output_variable nm output_node self))
      = (output_map self
         ++ [(nm, mkReferenceAssign
                    (mkVariable nm (get_precision output_node) (Some Output))
                    output_node)])%list)
  /\ (fst (add_output_signal nm output_node self) = Ok tt
      /\ output_map (snd (add_output_signal nm output_node self))
         = (output_map self
            ++ [(nm, mkReferenceAssign
                       (mkSignal nm (get_precision output_node) (Some Output))
                       output_node)])%list)
  /\ (forall other, other <> nm ->
        dict_get other (output_map (snd (add_output_variable nm output_node self)))
        = dict_get other (output_map self)
        /\ dict_get other (output_map (snd (add_output_signal nm output_node self)))
           = dict_get other (output_map self)).
Proof.
  intros Hfresh.
  unfold add_output_variable, add_output_signal, py_bind, py_ret.
  rewrite Hfresh. simpl. rewrite !(dict_set_fresh _ _ _ Hfresh).
  repeat split; try reflexivity;
    rewrite dict_get_app_fresh;
    destruct (dict_get other (output_map self)); try reflexivity;
    destruct (String.eqb_spec nm other); congruence.
Qed.

(** What was registered is what the accessors give back: after an output is
    registered under a fresh name, its value and its port are found under
    that name, the port carries the name, the direction and the format of
    the value, and the value is the last element of the output list. *)
Lemma add_output_signal_round_trip (self : CodeEntity) (nm : string)
  (output_node : ML_Operation) (values : list ML_Operation) :
  dict_in nm (output_map self) = false ->
  get_output_list self = Ok values ->
  let self' := snd (add_output_signal nm output_node self) in
  get_output_value_by_name self' nm = Ok output_node
  /\ get_output_port_by_name self' nm
     = Ok (mkSignal nm (get_precision output_node) (Some Output))
  /\ (out ← output_map_item self' nm; get_output_precision out)
     = Ok (get_precision output_node)
  /\ get_output_list self' = Ok (values ++ [output_node])%list.
Proof.
  intros Hfresh Hvalues self'.
  assert (output_map self'
          = (output_map self
             ++ [(nm, mkReferenceAssign
                        (mkSignal nm (get_precision output_node) (Some Output))
                        output_node)])%list) as Hmap.
  { subst self'. unfold add_output_signal, py_bind, py_ret.
    rewrite Hfresh. simpl. now rewrite (dict_set_fresh _ _ _ Hfresh). }
  assert (dict_get nm (output_map self) = None) as Hnone.
  { unfold dict_in in Hfresh. destruct (dict_get nm (output_map self));
      [discriminate | reflexivity]. }
  unfold get_output_value_by_name, get_output_port_by_name, output_map_item,
    get_output_list, get_output_assign, dict_values.
  rewrite Hmap, dict_get_app_fresh, Hnone, String.eqb_refl.
  repeat split; try reflexivity.
  - simpl. unfold get_output_precision, get_input. simpl.
    destruct (get_precision output_node) eqn:E; simpl; rewrite ?E; reflexivity.
  - rewrite map_app. apply mapM_Result_app; [exact Hvalues | reflexivity].
Qed.

(** The same round trip for [add_output_variable]. *)
Lemma add_output_variable_round_trip (self : CodeEntity) (nm : string)
  (output_node : ML_Operation) (values : list ML_Operation) :
  dict_in nm (output_map self) = false ->
  get_output_list self = Ok values ->
  let self' := snd (add_output_variable nm output_node self) in
  get_output_value_by_name self' nm = Ok output_node
  /\ get_output_port_by_name self' nm
     = Ok (mkVariable nm (get_precision output_node) (Some Output))
  /\ (out ← output_map_item self' nm; get_output_precision out)
     = Ok (get_precision output_node)
  /\ get_output_list self' = Ok (values ++ [output_node])%list.
Proof.
  intros Hfresh Hvalues self'.
  assert (output_map self'
          = (output_map self
             ++ [(nm, mkReferenceAssign
                        (mkVariable nm (get_precision output_node) (Some Output))
                        output_node)])%list) as Hmap.
  { subst self'. unfold add_output_variable, py_bind, py_ret.
    rewrite Hfresh. simpl. now rewrite (dict_set_fresh _ _ _ Hfresh). }
  assert (dict_get nm (output_map self) = None) as Hnone.
  { unfold dict_in in Hfresh. destruct (dict_get nm (output_map self));
      [discriminate | reflexivity]. }
  unfold get_output_value_by_name, get_output_port_by_name, output_map_item,
    get_output_list, get_output_assign, dict_values.
  rewrite Hmap, dict_get_app_fresh, Hnone, String.eqb_refl.
  repeat split; try reflexivity.
  - simpl. unfold get_output_precision, get_input. simpl.
    destruct (get_precision output_node) eqn:E; simpl; rewrite ?E; reflexivity.
  - rewrite map_app. apply mapM_Result_app; [exact Hvalues | reflexivity].
Qed.

(** X2.  What was registered is what the accessors give back, for both
    registration methods: after an output is registered under a fresh name,
    its value and its port are found under that name, the port carries the
    name, the output direction and the format of the value, which is also
    the format [get_output_precision] reports, and the value is the last
    element of the output list. *)
Theorem add_output_round_trip (self : CodeEntity) (nm : string)
  (output_node : ML_Operation) (values : list ML_Operation) :
  dict_in nm (output_map self) = false ->
  get_output_list self = Ok values ->
  (let self' := snd (add_output_variable nm output_node self) in
   get_output_value_by_name self' nm = Ok output_node
   /\ get_output_port_by_name self' nm
      = Ok (mkVariable nm (get_precision output_node) (Some Output))
   /\ (out ← output_map_item self' nm; get_output_precision out)
      = Ok (get_precision output_node)
   /\ get_output_list self' = Ok (values ++ [output_node])%list)
  /\
  (let self' := snd (add_output_signal nm output_node self) in
   get_output_value_by_name self' nm = Ok output_node
   /\ get_output_port_by_name self' nm
      = Ok (mkSignal nm (get_precision output_node) (Some Output))
   /\ (out ← output_map_item self' nm; get_output_precision out)
      = Ok (get_precision output_node)
   /\ get_output_list self' = Ok (values ++ [output_node])%list).
Proof.
  intros Hfresh Hvalues. split.
  - exact (add_output_variable_round_trip self nm output_node values
             Hfresh Hvalues).
  - exact (add_output_signal_round_trip self nm output_node values
             Hfresh Hvalues).
Qed.

(** ** Entities built through the construction operations *)

Lemma new_output_entry_well_formed (op : EntityOp) (entry : string * ML_Operation) :
  output_entry_of op = Some entry -> output_entry_well_formed entry.
Proof.
  destruct op; simpl; intros [= <-];
    eexists _, _; repeat split; reflexivity.
Qed.

(** What one operation does to the output map: nothing, or, for a
    registration under a fresh name, one more entry at the end. *)
Lemma step_output_map (op : EntityOp) (w : World) :
  output_map (entity (snd (step op w))) = output_map (entity w)
  \/ (exists entry, output_entry_of op = Some entry
        /\ dict_in (fst entry) (output_map (entity w)) = false
        /\ fst (step op w) = Ok tt
        /\ output_map (entity (snd (step op w)))
           = (output_map (entity w) ++ [entry])%list).
Proof.
  destruct op; try (left; reflexivity);
    simpl; unfold on_entity, add_output_variable, add_output_signal, py_bind,
      py_ret, Log_report_error, py_raise;
    destruct (dict_in nm (output_map (entity w))) eqn:Hin; simpl;
    try (left; reflexivity);
    right; eexists; (split; [reflexivity|]); simpl;
    rewrite (dict_set_fresh _ _ _ Hin); auto.
Qed.

Lemma step_outputs_well_formed (op : EntityOp) (w : World) :
  outputs_well_formed (entity w) ->
  outputs_well_formed (entity (snd (step op w))).
Proof.
  intros [Hnodup Hall]. unfold outputs_well_formed.
  destruct (step_output_map op w) as [->|(entry & Hentry & Hfresh & _ & ->)];
    [split; assumption|].
  split.
  - rewrite map_app. apply NoDup_app. split; [exact Hnodup|].
    split; [|apply NoDup_singleton].
    intros k Hk Hk'. apply list_elem_of_singleton in Hk'. subst k.
    now apply (dict_in_false_not_key _ _ Hfresh).
  - apply Forall_app. split; [exact Hall|].
    constructor; [|constructor].
    now apply (new_output_entry_well_formed op).
Qed.

Lemma run_outputs_well_formed (ops : list EntityOp) (w : World) :
  outputs_well_formed (entity w) ->
  outputs_well_formed (entity (snd (run ops w))).
Proof.
  revert w. induction ops as [|op ops IH]; intros w Hw; simpl; [exact Hw|].
  pose proof (step_outputs_well_formed op w Hw) as Hstep.
  unfold py_bind. destruct (step op w) as [[[]|e] w1]; simpl in *; auto.
Qed.

Lemma init_outputs_well_formed nm al lang reg :
  outputs_well_formed (entity (CodeEntity_init nm al None lang reg)).
Proof. split; simpl; constructor. Qed.

(** X3.  For an entity created without an output map, whatever construction
    operations follow, in whatever order and whether or not one of them
    fails: no two outputs share a name, and every output is the assignment
    of a value to a leaf port that carries the output's name, the format of
    the value and the output direction. *)
Theorem built_entity_outputs_well_formed (nm : string)
  (arg_list0 : option (list ML_Operation)) (language0 : option CodeLanguage)
  (registry : list AttributeCtor) (ops : list EntityOp) :
  outputs_well_formed
    (entity (snd (run ops (CodeEntity_init nm arg_list0 None language0 registry)))).
Proof. apply run_outputs_well_formed, init_outputs_well_formed. Qed.

Lemma dict_get_Some_elem {V} (k : string) (v : V) (d : list (string * V)) :
  dict_get k d = Some v -> (k, v) ∈ d.
Proof.
  induction d as [|[k' v'] d IH]; simpl; [discriminate|].
  destruct (String.eqb_spec k' k) as [->|Hne].
  - intros [= ->]. apply list_elem_of_here.
  - intros Hget. apply list_elem_of_further. now apply IH.
Qed.

Lemma mapM_Result_total {A B} (f : A -> Result B) (g : A -> B) (l : list A) :
  Forall (fun x => f x = Ok (g x)) l -> mapM f l = Ok (map g l).
Proof.
  intros Hall. apply mapM_Result_Ok. induction Hall; simpl; constructor; auto.
Qed.

Lemma well_formed_output_lists (self : CodeEntity) :
  Forall output_entry_well_formed (output_map self) ->
  exists values ports,
    get_output_list self = Ok values
    /\ get_output_port self = Ok ports
    /\ map get_tag ports = map (fun e => Some (fst e)) (output_map self).
Proof.
  unfold get_output_list, get_output_port, get_output_assign, dict_values.
  generalize (output_map self) as d. intros d Hall.
  induction Hall as [|e d (p & v & He & Ht & _) _
                       (values & ports & Hv & Hp & Htags)].
  - exists [], []. repeat split; reflexivity.
  - exists (v :: values), (p :: ports). simpl in *.
    rewrite He. simpl. rewrite Hv, Hp. simpl. rewrite Ht, Htags.
    repeat split; reflexivity.
Qed.

(** X4.  On such an entity the accessors by name succeed exactly for the
    registered names, and the list accessors never fail: the ports come
    back in registration order, each tagged with its output's name. *)
Theorem built_entity_output_access (nm : string)
  (arg_list0 : option (list ML_Operation)) (language0 : option CodeLanguage)
  (registry : list AttributeCtor) (ops : list EntityOp) (key : string) :
  let self :=
    entity (snd (run ops (CodeEntity_init nm arg_list0 None language0 registry))) in
  is_Ok (get_output_value_by_name self key) = dict_in key (output_map self)
  /\ is_Ok (get_output_port_by_name self key) = dict_in key (output_map self)
  /\ (dict_in key (output_map self) = false ->
      get_output_value_by_name self key = Raise (KeyError key))
  /\ (exists values ports,
        get_output_list self = Ok values
        /\ get_output_port self = Ok ports
        /\ map get_tag ports = map (fun e => Some (fst e)) (output_map self)).
Proof.
  intros self.
  destruct (run_outputs_well_formed ops _
              (init_outputs_well_formed nm arg_list0 language0 registry))
    as [_ Hall].
  fold self in Hall.
  pose proof (well_formed_output_lists self Hall) as Hlists.
  assert (forall out, dict_get key (output_map self) = Some out ->
            exists port value, out = mkReferenceAssign port value) as Hshape.
  { intros out Hget. apply dict_get_Some_elem in Hget.
    rewrite Forall_forall in Hall.
    destruct (Hall _ Hget) as (port & value & Hout & _). eauto. }
  unfold get_output_value_by_name, get_output_port_by_name, output_map_item,
    dict_in.
  destruct (dict_get key (output_map self)) as [out|] eqn:Hget; simpl.
  - destruct (Hshape out eq_refl) as (port & value & ->).
    repeat split; try discriminate. exact Hlists.
  - repeat split; try reflexivity. exact Hlists.
Qed.

Lemma well_formed_output_lines_agree `{FormatCodeName} (lang : CodeLanguage)
  (d : list (string * ML_Operation)) :
  Forall output_entry_well_formed d ->
  mapM (component_output_port_line lang) (dict_values d)
  = mapM (output_port_line lang) (dict_values d).
Proof.
  unfold dict_values.
  induction 1 as [|e d (port & value & He & _ & Hprec & _) _ IH];
    [reflexivity|].
  simpl. rewrite IH, He.
  unfold component_output_port_line, output_port_line, get_port_from_output,
    get_output_precision, get_input. simpl.
  destruct (get_precision port) as [p|] eqn:Hp; simpl; [reflexivity|].
  rewrite <- Hprec. reflexivity.
Qed.

(** X5.  For an entity created without an output map and built through the
    construction operations, the component declaration goes the way of the
    entity declaration: when the entity declaration renders, the component
    declaration renders with the very same port block, and when the entity
    declaration raises, the component declaration raises the same
    exception. *)
Theorem built_entity_declarations_agree `{FormatCodeName} (nm : string)
  (arg_list0 : option (list ML_Operation)) (language0 : option CodeLanguage)
  (registry : list AttributeCtor) (ops : list EntityOp)
  (final : bool) (lang0 : option CodeLanguage) :
  let self :=
    entity (snd (run ops (CodeEntity_init nm arg_list0 None language0 registry))) in
  (forall decl, get_declaration self final lang0 = Ok decl ->
     exists port_desc,
       decl = "entity " ++ name self ++ " is " ++ nl ++ port_desc ++ nl
              ++ "end " ++ name self ++ ";" ++ nl ++ nl
       /\ get_component_declaration self final lang0
          = Ok ("component " ++ name self ++ " " ++ nl ++ port_desc ++ nl
                ++ "end component;" ++ nl ++ nl))
  /\ (forall e, get_declaration self final lang0 = Raise e ->
        get_component_declaration self final lang0 = Raise e).
Proof.
  intros self.
  destruct (run_outputs_well_formed ops _
              (init_outputs_well_formed nm arg_list0 language0 registry))
    as [_ Hall].
  fold self in Hall.
  unfold get_declaration, get_component_declaration, get_output_assign.
  rewrite (well_formed_output_lines_agree _ _ Hall).
  destruct (mapM (input_port_line _) (arg_list self)) as [ins|e1]; simpl;
    [|split; [discriminate | auto]].
  destruct (mapM (output_port_line _) (dict_values (output_map self)))
    as [outs|e2]; simpl; [|split; [discriminate | auto]].
  split; [|discriminate].
  intros decl [= <-]. eexists. split; reflexivity.
Qed.

(** ** The argument list and the name-to-node map *)

Lemma init_arg_map_invariant (P : option string -> ML_Operation -> Prop)
  (l : list ML_Operation) (m : gmap (option string) ML_Operation) :
  map_Forall P m -> Forall (fun arg => P (get_tag arg) arg) l ->
  map_Forall P (foldl (fun m arg => <[get_tag arg := arg]> m) m l).
Proof.
  intros Hm Hl. revert m Hm.
  induction Hl as [|arg l Harg _ IH]; intros m Hm; simpl; [exact Hm|].
  apply IH. now apply map_Forall_insert_2.
Qed.

Lemma init_arg_map_tagged nm al om lang reg :
  arg_map_tagged (entity (CodeEntity_init nm al om lang reg)).
Proof.
  unfold arg_map_tagged. simpl. apply init_arg_map_invariant.
  - apply map_Forall_empty.
  - apply Forall_forall. reflexivity.
Qed.

Lemma init_arg_map_listed nm al om lang reg :
  arg_map_listed (entity (CodeEntity_init nm al om lang reg)).
Proof.
  unfold arg_map_listed. simpl. apply init_arg_map_invariant.
  - apply map_Forall_empty.
  - apply Forall_forall. auto.
Qed.

(** What one operation does to the argument list and to the map. *)
Lemma step_arg_map (op : EntityOp) (w : World) :
  (arg_map (entity (snd (step op w))) = arg_map (entity w)
   /\ (arg_list (entity (snd (step op w))) = arg_list (entity w)
       \/ (exists n, arg_list (entity (snd (step op w)))
                     = (arg_list (entity w) ++ [n])%list)
       \/ (is_clear_arg_list op = true
           /\ arg_list (entity (snd (step op w))) = [])))
  \/ (exists t n, get_tag n = Some t
        /\ arg_map (entity (snd (step op w))) = <[Some t := n]> (arg_map (entity w))
        /\ arg_list (entity (snd (step op w))) = (arg_list (entity w) ++ [n])%list).
Proof.
  destruct op; simpl;
    try (left; split; [reflexivity | left; reflexivity]).
  - right. eexists _, _. repeat split; reflexivity.
  - left. unfold on_entity, add_output_variable, py_bind, py_ret,
      Log_report_error, py_raise.
    destruct (dict_in nm (output_map (entity w))); simpl;
      (split; [reflexivity | left; reflexivity]).
  - right. eexists _, _. repeat split; reflexivity.
  - left. unfold on_entity, add_output_signal, py_bind, py_ret,
      Log_report_error, py_raise.
    destruct (dict_in nm (output_map (entity w))); simpl;
      (split; [reflexivity | left; reflexivity]).
  - left. split; [reflexivity|]. right. left. eexists. reflexivity.
  - left. split; [reflexivity|]. right. right. split; reflexivity.
Qed.

Lemma step_arg_map_tagged (op : EntityOp) (w : World) :
  arg_map_tagged (entity w) -> arg_map_tagged (entity (snd (step op w))).
Proof.
  unfold arg_map_tagged. intros Hw.
  destruct (step_arg_map op w) as [[-> _]|(t & n & Ht & -> & _)];
    [exact Hw|].
  now apply map_Forall_insert_2.
Qed.

Lemma step_arg_map_listed (op : EntityOp) (w : World) :
  is_clear_arg_list op = false ->
  arg_map_listed (entity w) -> arg_map_listed (entity (snd (step op w))).
Proof.
  unfold arg_map_listed. intros Hclear Hw.
  destruct (step_arg_map op w)
    as [[-> [-> | [[n ->] | [Hc _]]]] | (t & n & Ht & -> & ->)].
  - exact Hw.
  - eapply map_Forall_impl; [exact Hw|]. simpl. intros _ x Hx.
    apply elem_of_app. now left.
  - congruence.
  - apply map_Forall_insert_2.
    + apply elem_of_app. right. apply list_elem_of_here.
    + eapply map_Forall_impl; [exact Hw|]. simpl. intros _ x Hx.
      apply elem_of_app. now left.
Qed.

Lemma run_arg_map_tagged (ops : list EntityOp) (w : World) :
  arg_map_tagged (entity w) -> arg_map_tagged (entity (snd (run ops w))).
Proof.
  revert w. induction ops as [|op ops IH]; intros w Hw; simpl; [exact Hw|].
  pose proof (step_arg_map_tagged op w Hw) as Hstep.
  unfold py_bind. destruct (step op w) as [[[]|e] w1]; simpl in *; auto.
Qed.

Lemma run_arg_map_listed (ops : list EntityOp) (w : World) :
  forallb (fun op => negb (is_clear_arg_list op)) ops = true ->
  arg_map_listed (entity w) -> arg_map_listed (entity (snd (run ops w))).
Proof.
  revert w. induction ops as [|op ops IH]; intros w Hops Hw; simpl;
    [exact Hw|].
  simpl in Hops. apply andb_prop in Hops as [Hop Hops].
  apply negb_true_iff in Hop.
  pose proof (step_arg_map_listed op w Hop Hw) as Hstep.
  unfold py_bind. destruct (step op w) as [[[]|e] w1]; simpl in *; auto.
Qed.

(** X6.  Whatever the initial argument list and the construction operations, a
    node found by [get_input_by_tag] carries the tag it was asked for; and
    as long as [clear_arg_list] was not called, it is one of the entity's
    arguments, so it has a port line in the declaration. *)
Theorem get_input_by_tag_sound (nm : string)
  (arg_list0 : option (list ML_Operation))
  (output_map0 : option (list (string * ML_Operation)))
  (language0 : option CodeLanguage) (registry : list AttributeCtor)
  (ops : list EntityOp) (t : option string) (n : ML_Operation) :
  let self :=
    entity (snd (run ops (CodeEntity_init nm arg_list0 output_map0 language0
                            registry))) in
  get_input_by_tag self t = Some n ->
  get_tag n = t
  /\ (forallb (fun op => negb (is_clear_arg_list op)) ops = true ->
      n ∈ arg_list self).
Proof.
  intros self Hget.
  assert (arg_map self !! t = Some n) as Hlookup.
  { unfold get_input_by_tag in Hget.
    destruct (arg_map self !! t); [exact Hget | discriminate]. }
  split.
  - exact (run_arg_map_tagged ops _
             (init_arg_map_tagged nm arg_list0 output_map0 language0 registry)
             t n Hlookup).
  - intros Hops.
    exact (run_arg_map_listed ops _ Hops
             (init_arg_map_listed nm arg_list0 output_map0 language0 registry)
             t n Hlookup).
Qed.

Lemma step_get_input_by_tag_persists (op : EntityOp) (w : World)
  (t : option string) :
  is_Some (get_input_by_tag (entity w) t) ->
  is_Some (get_input_by_tag (entity (snd (step op w))) t).
Proof.
  unfold get_input_by_tag.
  destruct (step_arg_map op w) as [[-> _]|(t' & n & _ & -> & _)];
    [auto|].
  destruct (decide (Some t' = t)) as [<-|Hne].
  - rewrite lookup_insert_eq. eauto.
  - now rewrite lookup_insert_ne.
Qed.

(** X7.  A name once registered as input is never forgotten: whatever
    construction operations follow, [clear_arg_list] included,
    [get_input_by_tag] keeps finding a node under it. *)
Theorem get_input_by_tag_persists (ops : list EntityOp) (w : World)
  (t : option string) :
  is_Some (get_input_by_tag (entity w) t) ->
  is_Some (get_input_by_tag (entity (snd (run ops w))) t).
Proof.
  revert w. induction ops as [|op ops IH]; intros w Hw; simpl; [exact Hw|].
  pose proof (step_get_input_by_tag_persists op w t Hw) as Hstep.
  unfold py_bind. destruct (step op w) as [[[]|e] w1]; simpl in *; auto.
Qed.

(** The argument list and the map are updated separately and can part:
    [clear_arg_list] empties the list, so that no input port is declared any
    more, while every name is still found; and a node appended by
    [register_new_input_variable] gets a port line without becoming
    findable by its tag. *)
Lemma arg_list_and_arg_map_part (self : CodeEntity)
  (new_input : ML_Operation) (t : option string) :
  (arg_list (snd (clear_arg_list self)) = []
   /\ get_input_by_tag (snd (clear_arg_list self)) t = get_input_by_tag self t)
  /\ (arg_list (snd (register_new_input_variable new_input self))
        = (arg_list self ++ [new_input])%list
      /\ get_input_by_tag (snd (register_new_input_variable new_input self)) t
         = get_input_by_tag self t).
Proof. repeat split. Qed.

(** ** Stages, processes and the scheme *)

Lemma run_app (ops1 ops2 : list EntityOp) (w : World) :
  fst (run ops1 w) = Ok tt ->
  run (ops1 ++ ops2) w = run ops2 (snd (run ops1 w)).
Proof.
  revert w. induction ops1 as [|op ops1 IH]; intros w Hok; simpl;
    [reflexivity|].
  simpl in Hok. unfold py_bind in *.
  destruct (step op w) as [[[]|e] w1]; simpl in *; [|discriminate].
  now apply IH.
Qed.

Lemma run_start_new_stage (k : nat) (w : World) :
  fst (run (replicate k Op_start_new_stage) w) = Ok tt
  /\ current_stage (entity (snd (run (replicate k Op_start_new_stage) w)))
     = (current_stage (entity w) + Z.of_nat k)%Z.
Proof.
  revert w. induction k as [|k IH]; intros w.
  - simpl. split; [reflexivity | lia].
  - change (run (replicate (S k) Op_start_new_stage) w)
      with (run (replicate k Op_start_new_stage) (snd (start_new_stage w))).
    destruct (IH (snd (start_new_stage w))) as [Hok Hstage].
    split; [exact Hok|]. rewrite Hstage.
    change (current_stage (entity (snd (start_new_stage w))))
      with (current_stage (entity w) + 1)%Z.
    lia.
Qed.

(** X8.  Opening [k] stages in a row, at any point of the construction of an
    entity, succeeds and raises the counter by exactly [k]; the default of
    the registered [init_stage] constructor follows. *)
Theorem start_new_stage_repeated (nm : string)
  (arg_list0 : option (list ML_Operation))
  (output_map0 : option (list (string * ML_Operation)))
  (language0 : option CodeLanguage) (registry : list AttributeCtor)
  (ops : list EntityOp) (k : nat) :
  let w := snd (run ops (CodeEntity_init nm arg_list0 output_map0 language0
                           registry)) in
  let w' := snd (run (replicate k Op_start_new_stage) w) in
  fst (run (replicate k Op_start_new_stage) w) = Ok tt
  /\ current_stage (entity w') = (current_stage (entity w) + Z.of_nat k)%Z
  /\ dyn_attribute_list w' !! init_stage_attribute (entity w')
     = Some (MkAttributeCtor "init_stage"
               (AttrInt (current_stage (entity w) + Z.of_nat k))).
Proof.
  intros w w'. destruct (run_start_new_stage k w) as [Hok Hstage].
  split; [exact Hok|]. split; [exact Hstage|].
  rewrite <- Hstage. apply tracked_stage_is_default.
  apply run_tracks_stage. apply run_tracks_stage. apply init_tracks_stage.
Qed.

(** X9.  Operations that register ports or processes, or clear the argument
    list, never touch the stage: across any sequence of them the counter,
    the entity's reference to its [init_stage] constructor and the whole
    attribute registry stay as they were. *)
Theorem run_without_stage_ops_frame (ops : list EntityOp) (w : World) :
  forallb (fun op => negb (is_stage_op op)) ops = true ->
  current_stage (entity (snd (run ops w))) = current_stage (entity w)
  /\ init_stage_attribute (entity (snd (run ops w)))
     = init_stage_attribute (entity w)
  /\ dyn_attribute_list (snd (run ops w)) = dyn_attribute_list w.
Proof.
  revert w. induction ops as [|op ops IH]; intros w Hops; simpl; [auto|].
  simpl in Hops. apply andb_prop in Hops as [Hop Hops].
  apply negb_true_iff in Hop.
  assert (op <> Op_start_new_stage) as Hns by (intros ->; discriminate).
  assert (is_set_current_stage op = false) as Hset
    by (destruct op; try reflexivity; discriminate).
  destruct (step_keeps_stage op w Hns Hset) as (Hs & Hi & Hr).
  unfold py_bind. destruct (step op w) as [[[]|e] w1]; simpl in *.
  - destruct (IH w1 Hops) as (Hs' & Hi' & Hr'). rewrite Hs', Hi', Hr'. auto.
  - auto.
Qed.

(** What a successful operation adds to the process list and to the output
    map. *)
Lemma step_success_effect (op : EntityOp) (w : World) :
  fst (step op w) = Ok tt ->
  process_list (entity (snd (step op w)))
    = (process_list (entity w) ++ omap process_of [op])%list
  /\ output_map (entity (snd (step op w)))
     = (output_map (entity w) ++ omap output_entry_of [op])%list.
Proof.
  destruct op; simpl; intros Hok;
    try (split; [now rewrite ?app_nil_r | now rewrite ?app_nil_r]).
  - revert Hok.
    unfold on_entity, add_output_variable, py_bind, py_ret, Log_report_error,
      py_raise.
    destruct (dict_in nm (output_map (entity w))) eqn:Hin; simpl;
      [discriminate|]. intros _.
    rewrite (dict_set_fresh _ _ _ Hin), app_nil_r. split; reflexivity.
  - revert Hok.
    unfold on_entity, add_output_signal, py_bind, py_ret, Log_report_error,
      py_raise.
    destruct (dict_in nm (output_map (entity w))) eqn:Hin; simpl;
      [discriminate|]. intros _.
    rewrite (dict_set_fresh _ _ _ Hin), app_nil_r. split; reflexivity.
Qed.

Lemma run_success_effect (ops : list EntityOp) (w : World) :
  fst (run ops w) = Ok tt ->
  process_list (entity (snd (run ops w)))
    = (process_list (entity w) ++ omap process_of ops)%list
  /\ output_map (entity (snd (run ops w)))
     = (output_map (entity w) ++ omap output_entry_of ops)%list.
Proof.
  revert w. induction ops as [|op ops IH]; intros w Hok.
  - simpl. now rewrite !app_nil_r.
  - change (op :: ops) with ([op] ++ ops)%list.
    rewrite !omap_app. simpl in Hok |- *. unfold py_bind in *.
    pose proof (step_success_effect op w) as Hstep.
    destruct (step op w) as [[[]|e] w1]; simpl in *; [|discriminate].
    destruct (Hstep eq_refl) as [Hp Ho]. destruct (IH w1 Hok) as [Hp' Ho'].
    rewrite Hp', Ho', Hp, Ho, <- !app_assoc. split; reflexivity.
Qed.

(** X10.  After a construction that went through without error, the scheme of the
    entity lists the processes in the order they were added, followed by the
    output assignments in the order they were registered, however the two
    kinds of operations were interleaved. *)
Theorem scheme_of_successful_run (ops : list EntityOp) (w : World) :
  fst (run ops w) = Ok tt ->
  get_scheme (entity (snd (run ops w)))
  = mkStatement
      (process_list (entity w) ++ omap process_of ops
       ++ dict_values (output_map (entity w))
       ++ dict_values (omap output_entry_of ops))%list.
Proof.
  intros Hok. destruct (run_success_effect ops w Hok) as [Hp Ho].
  unfold get_scheme, get_output_assign, dict_values.
  rewrite Hp, Ho, map_app, <- !app_assoc. reflexivity.
Qed.

(** ** Backup chains and lowering *)

(** X11.  A backup chain whose modifiers all find nothing and which ends in an
    inline-assembly operator renders the original node with that operator:
    the node, the argument tuple, the callback, the keywords and the code
    object arrive unchanged, however long the chain. *)
Theorem backup_chain_ends_in_inline_asm {CO PreProcess : Type}
  `{InlineAsmBackend CO PreProcess}
  (op : ML_CG_Operator) (template : string) (slots : list (nat * FO_Slot))
  (arity : nat) (code_generator : CodeGenerator CO)
  (optree : ML_Operation) (arg_tuple : list ML_Operation)
  (generate_pre_process : option PreProcess) (kwords : Kwords)
  (code_object : CO) :
  falls_back_to optree op (AsmInlineOperator template slots arity) ->
  generate_expr op code_generator optree arg_tuple generate_pre_process kwords
    code_object
  = asm_generate_expr template slots arity code_generator optree arg_tuple
      generate_pre_process kwords code_object.
Proof.
  intros Hchain.
  rewrite (generate_expr_falls_back _ _ _ _ _ _ _ _ Hchain). reflexivity.
Qed.

(** X12.  A backup chain whose modifiers all find nothing and whose last operator
    is a complex operator without backup ends like a single such operator:
    the code generator is asked to generate the missing node. *)
Theorem exhausted_backup_chain {CO PreProcess : Type}
  `{InlineAsmBackend CO PreProcess}
  (op : ML_CG_Operator)
  (last_modifier : ML_Operation -> Result (option ML_Operation))
  (code_generator : CodeGenerator CO)
  (optree : ML_Operation) (arg_tuple : list ML_Operation)
  (generate_pre_process : option PreProcess) (kwords : Kwords)
  (code_object : CO) :
  falls_back_to optree op (ComplexOperator last_modifier None) ->
  last_modifier optree = Ok None ->
  generate_expr op code_generator optree arg_tuple generate_pre_process kwords
    code_object
  = cg_generate_expr code_generator None kwords code_object.
Proof.
  intros Hchain Hnone.
  rewrite (generate_expr_falls_back _ _ _ _ _ _ _ _ Hchain).
  cbn [generate_expr]. rewrite Hnone. reflexivity.
Qed.

(** X13.  A complex operator built on [lowerConversion] never falls back: on a
    node with an operand the modifier always finds a replacement, so the
    code generator is asked for the two nested conversions whatever backup
    is configured; on a node without operand the modifier's [IndexError]
    comes out and the code object is untouched. *)
Theorem lowerConversion_never_falls_back {CO PreProcess : Type}
  `{InlineAsmBackend CO PreProcess}
  (intFormat targetFormat : ML_Format) (backup : option ML_CG_Operator)
  (code_generator : CodeGenerator CO)
  (conv : ML_Operation) (arg_tuple : list ML_Operation)
  (generate_pre_process : option PreProcess) (kwords : Kwords)
  (code_object : CO) :
  lowerConversion intFormat targetFormat conv <> Ok None
  /\ generate_expr (ComplexOperator (lowerConversion intFormat targetFormat) backup)
       code_generator conv arg_tuple generate_pre_process kwords code_object
     = match inputs conv with
       | op :: _ =>
           cg_generate_expr code_generator
             (Some (mkConversion (mkConversion op intFormat) targetFormat))
             kwords code_object
       | [] => (Raise (IndexError "list index out of range"), code_object)
       end.
Proof.
  split.
  - unfold lowerConversion, get_input.
    destruct (inputs conv); simpl; discriminate.
  - cbn [generate_expr]. unfold lowerConversion, get_input.
    destruct (inputs conv) as [|op rest]; simpl; [reflexivity|].
    destruct backup; reflexivity.
Qed.

(** X14.  Every rewrite entry of the RISC-V table has no backup, is filed under a
    signature of two formats, and rewrites a node with operand [x] into
    [Conversion(Conversion(x, I), R)], where [R] is the first format of the
    signature and [I] is a machine integer format: the replacement has the
    result format of the entry it stands for. *)
Theorem rv64_rewrite_entries_keep_result_format
  (sig : TypeSignature) (optree_modifier : ML_Operation -> Result (option ML_Operation))
  (backup : option ML_CG_Operator) :
  In (sig, ComplexOperator optree_modifier backup)
     (table_entries rv64CCodeGenTable) ->
  backup = None
  /\ exists result_format operand_format int_format,
       sig = type_strict_match [result_format; operand_format]
       /\ (int_format = ML_Int32 \/ int_format = ML_Int64)
       /\ forall node x rest, inputs node = x :: rest ->
            optree_modifier node
            = Ok (Some (mkConversion (mkConversion x int_format) result_format))
            /\ (forall replacement, optree_modifier node = Ok (Some replacement) ->
                  get_precision replacement = Some result_format).
Proof.
  simpl. intros Hin.
  assert (forall i t node x rest, inputs node = x :: rest ->
            lowerConversion i t node
            = Ok (Some (mkConversion (mkConversion x i) t))
            /\ (forall replacement,
                  lowerConversion i t node = Ok (Some replacement) ->
                  get_precision replacement = Some t)) as Hlower.
  { intros i t node x rest Hinputs. unfold lowerConversion, get_input.
    rewrite Hinputs. simpl. split; [reflexivity|]. intros r [= <-]. reflexivity. }
  repeat (destruct Hin as [Hin|Hin]; [try discriminate|]); try contradiction;
    injection Hin as <- <- <-; (split; [reflexivity|]).
  - exists ML_Binary32, ML_Binary32, ML_Int32.
    split; [reflexivity|]. split; [now left|].
    intros node x rest Hinputs. exact (Hlower _ _ node x rest Hinputs).
  - exists ML_Int32, ML_Binary64, ML_Int64.
    split; [reflexivity|]. split; [now right|].
    intros node x rest Hinputs. exact (Hlower _ _ node x rest Hinputs).
  - exists ML_Binary64, ML_Binary64, ML_Int64.
    split; [reflexivity|]. split; [now right|].
    intros node x rest Hinputs. exact (Hlower _ _ node x rest Hinputs).
Qed.

(** ** Tool paths from the environment *)

(** X15.  Whatever the logger does with the error report, [buildRVCompilerPath]
    returns a path exactly when [RISCV] is set, and the path is
    [$RISCV/bin/riscv64-unknown-elf-gcc]; without the variable it raises,
    either the logger's exception or the unbound-variable error of the
    statement that follows the handler. *)
Theorem buildRVCompilerPath_returns `{Logger} (environ : gmap string string)
  (compiler : string) :
  buildRVCompilerPath environ = Ok compiler
  <-> exists RISCV, environ !! "RISCV" = Some RISCV
                    /\ compiler = RISCV ++ "/bin/riscv64-unknown-elf-gcc".
Proof.
  unfold buildRVCompilerPath, environ_or_report, read_local.
  destruct (environ !! "RISCV") as [v|]; simpl.
  - split.
    + intros [= <-]. eauto.
    + intros (v' & [= <-] & ->). reflexivity.
  - split.
    + destruct (Log_report_Error _); simpl; discriminate.
    + intros (v' & Hv & _). discriminate.
Qed.

(** X16.  [get_execution_command] returns a command exactly when [PK_BIN] and
    [SPIKE_BIN] are both set, whatever the logger does, and the command is
    the simulator, the ISA flag, the proxy kernel and the test file. *)
Theorem get_execution_command_returns `{Logger}
  (environ : gmap string string) (test_file cmd : string) :
  get_execution_command environ test_file = Ok cmd
  <-> exists spike_bin pk_bin,
        environ !! "SPIKE_BIN" = Some spike_bin
        /\ environ !! "PK_BIN" = Some pk_bin
        /\ cmd = spike_bin ++ " --isa=RV64gc " ++ pk_bin ++ "  " ++ test_file.
Proof.
  unfold get_execution_command, environ_or_report, read_local.
  destruct (environ !! "PK_BIN") as [pk|]; simpl;
    destruct (environ !! "SPIKE_BIN") as [spike|]; simpl.
  - split.
    + intros [= <-]. eauto.
    + intros (s' & p' & [= <-] & [= <-] & ->). reflexivity.
  - split.
    + destruct (Log_report_Error _); simpl; discriminate.
    + intros (s' & p' & Hs & _). discriminate.
  - split.
    + destruct (Log_report_Error _); simpl; discriminate.
    + intros (s' & p' & _ & Hp & _). discriminate.
  - split.
    + repeat (match goal with
              | |- context [Log_report_Error ?msg] =>
                  destruct (Log_report_Error msg); simpl
              end);
        discriminate.
    + intros (s' & p' & Hs & _). discriminate.
Qed.

(** ** Failures of the declaration and of the generator *)

Lemma input_lines_fail `{FormatCodeName} (lang : CodeLanguage)
  (l : list ML_Operation) (inp : ML_Operation) :
  inp ∈ l -> get_precision inp = None ->
  mapM (input_port_line lang) l
  = Raise (AttributeError "'NoneType' object has no attribute 'get_code_name'").
Proof.
  intros Hin Hnone. induction l as [|x l IH]; [inversion Hin|].
  simpl. destruct (get_precision x) as [f|] eqn:Hx.
  - assert (input_port_line lang x
            = Ok (format_s (get_tag x) ++ " : in " ++ get_code_name f lang))
      as -> by (unfold input_port_line, call_get_code_name; now rewrite Hx).
    apply elem_of_cons in Hin as [->|Hin]; [congruence|].
    simpl. rewrite (IH Hin). reflexivity.
  - assert (input_port_line lang x
            = Raise (AttributeError
                       "'NoneType' object has no attribute 'get_code_name'"))
      as -> by (unfold input_port_line, call_get_code_name; now rewrite Hx).
    reflexivity.
Qed.

(** X17.  One input without a format is enough for both declarations to raise
    [AttributeError], wherever the input stands in the argument list and
    whatever the other ports are: no text is returned. *)
Theorem unformatted_input_fails `{FormatCodeName} (self : CodeEntity)
  (inp : ML_Operation) (final : bool) (language0 : option CodeLanguage) :
  inp ∈ arg_list self -> get_precision inp = None ->
  get_declaration self final language0
    = Raise (AttributeError "'NoneType' object has no attribute 'get_code_name'")
  /\ get_component_declaration self final language0
     = Raise (AttributeError "'NoneType' object has no attribute 'get_code_name'").
Proof.
  intros Hin Hnone. unfold get_declaration, get_component_declaration.
  rewrite !(input_lines_fail _ _ _ Hin Hnone). split; reflexivity.
Qed.

(** X18.  When the declaration of the entity raises, [add_definition] raises the
    same exception before it writes anything: the supplied code object,
    whatever its class, is left as it was and the generator is not run; and
    [get_definition] raises it too instead of returning a code object. *)
Theorem declaration_failure_stops_definition `{FormatCodeName} {CO : Type}
  `{CodeObjectInterface CO} (self : CodeEntity)
  (code_generator : CodeGenerator CO) (scoped_generator : CodeGenerator ScopedCode)
  (language0 : option CodeLanguage) (folded static_cst : bool)
  (code_object : CO) (e : PyExn) :
  get_declaration self false language0 = Raise e ->
  add_definition self code_generator language0 folded static_cst code_object
    = (Raise e, code_object)
  /\ get_definition self scoped_generator language0 folded static_cst = Raise e.
Proof.
  intros Hdecl. split.
  - unfold add_definition, py_bind, py_lift. rewrite Hdecl. reflexivity.
  - unfold get_definition, py_bind, py_lift. rewrite Hdecl. reflexivity.
Qed.

(** X19.  When the generator fails on the body, [add_definition] raises the
    generator's exception and stops there: the supplied code object holds
    the declaration and the architecture line, followed by whatever the
    generator wrote before failing, in a nested scope that is left open one
    level deeper, and the trailer [end architecture;] is not written. *)
Theorem generator_failure_leaves_definition_open `{FormatCodeName}
  (self : CodeEntity) (code_generator : CodeGenerator ScopedCode)
  (language0 : option CodeLanguage) (folded static_cst : bool)
  (decl : string) (texts : list string) (e : PyExn)
  (co : ScopedCode) (current : list (nat * string))
  (outer : list (list (nat * string))) :
  get_declaration self false language0 = Ok decl ->
  (forall co,
     cg_generate_expr code_generator (Some (get_scheme self))
       (definition_kwords language0 folded) co
     = (Raise e, sc_append texts co)) ->
  scopes co = current :: outer ->
  add_definition self code_generator language0 folded static_cst co
    = (Raise e,
       MkScopedCode (headers co) (S (tablevel co))
         (map (fun t => (S (tablevel co), t)) texts
          :: (current
              ++ [(tablevel co, decl);
                  (tablevel co,
                   "architecture rtl of " ++ name self ++ " is" ++ nl)%string])%list
          :: outer)).
Proof.
  intros Hdecl Hgen Hscopes. destruct co as [hs lvl sc]. simpl in Hscopes.
  subst sc. unfold add_definition, py_bind, py_lift. rewrite Hdecl.
  cbn -[get_scheme definition_kwords]. rewrite Hgen. cbn.
  do 2 f_equal. f_equal. rewrite <- app_assoc. reflexivity.
Qed.

(** ** Instances of the further properties *)

Lemma add_output_fresh_registers_witness :
  dict_in "t" (output_map adder_entity) = false
  /\ fst (add_output_variable "t" (value_node "Subtraction" (Some ML_Binary64))
            adder_entity) = Ok tt
  /\ output_map
       (snd (add_output_variable "t"
               (value_node "Subtraction" (Some ML_Binary64)) adder_entity))
     = (output_map adder_entity
        ++ [("t", mkReferenceAssign
                    (mkVariable "t" (Some ML_Binary64) (Some Output))
                    (value_node "Subtraction" (Some ML_Binary64)))])%list.
Proof.
  split; [reflexivity|].
  exact (proj1 (add_output_fresh_registers adder_entity "t"
                  (value_node "Subtraction" (Some ML_Binary64)) eq_refl)).
Defined.

Lemma add_output_round_trip_witness :
  dict_in "t" (output_map adder_entity) = false
  /\ get_output_list adder_entity
     = Ok [value_node "Addition" (Some ML_Binary32)]
  /\ get_output_value_by_name
       (snd (add_output_signal "t"
               (value_node "Subtraction" (Some ML_Binary64)) adder_entity)) "t"
     = Ok (value_node "Subtraction" (Some ML_Binary64))
  /\ get_output_list
       (snd (add_output_signal "t"
               (value_node "Subtraction" (Some ML_Binary64)) adder_entity))
     = Ok [value_node "Addition" (Some ML_Binary32);
           value_node "Subtraction" (Some ML_Binary64)].
Proof.
  split; [reflexivity|]. split; [reflexivity|].
  pose proof (add_output_round_trip adder_entity "t"
                (value_node "Subtraction" (Some ML_Binary64))
                [value_node "Addition" (Some ML_Binary32)] eq_refl eq_refl)
    as [_ (Hvalue & _ & _ & Hlist)].
  split; [exact Hvalue | exact Hlist].
Defined.

Lemma get_input_by_tag_sound_witness :
  get_input_by_tag
    (entity (snd (run adder_ops (CodeEntity_init "adder" None None None []))))
    (Some "b")
  = Some (mkSignal "b" (Some ML_Binary32) None)
  /\ get_tag (mkSignal "b" (Some ML_Binary32) None) = Some "b"
  /\ (forallb (fun op => negb (is_clear_arg_list op)) adder_ops = true ->
      mkSignal "b" (Some ML_Binary32) None
      ∈ arg_list
          (entity (snd (run adder_ops
                          (CodeEntity_init "adder" None None None []))))).
Proof.
  assert (get_input_by_tag
            (entity (snd (run adder_ops
                            (CodeEntity_init "adder" None None None []))))
            (Some "b")
          = Some (mkSignal "b" (Some ML_Binary32) None)) as Hget
    by (vm_compute; reflexivity).
  split; [exact Hget|].
  exact (get_input_by_tag_sound "adder" None None None [] adder_ops
           (Some "b") (mkSignal "b" (Some ML_Binary32) None) Hget).
Defined.

Lemma run_without_stage_ops_frame_witness :
  forallb (fun op => negb (is_stage_op op)) adder_ops = true
  /\ current_stage
       (entity (snd (run adder_ops
                       (snd (run [Op_set_current_stage 3]
                               (CodeEntity_init "adder" None None None []))))))
     = current_stage
         (entity (snd (run [Op_set_current_stage 3]
                         (CodeEntity_init "adder" None None None [])))).
Proof.
  split; [reflexivity|].
  exact (proj1 (run_without_stage_ops_frame adder_ops
                  (snd (run [Op_set_current_stage 3]
                          (CodeEntity_init "adder" None None None [])))
                  eq_refl)).
Defined.

Lemma scheme_of_successful_run_witness :
  fst (run interleaved_ops (CodeEntity_init "mixed" None None None [])) = Ok tt
  /\ get_scheme
       (entity (snd (run interleaved_ops
                       (CodeEntity_init "mixed" None None None []))))
     = mkStatement
         [ value_node "Process" None; value_node "Clock" None;
           mkReferenceAssign (mkSignal "s" (Some ML_Binary32) (Some Output))
             (value_node "Addition" (Some ML_Binary32));
           mkReferenceAssign (mkVariable "t" (Some ML_Binary64) (Some Output))
             (value_node "Subtraction" (Some ML_Binary64)) ].
Proof.
  split; [reflexivity|].
  exact (scheme_of_successful_run interleaved_ops
           (CodeEntity_init "mixed" None None None []) eq_refl).
Defined.

Lemma backup_chain_ends_in_inline_asm_witness :
  falls_back_to nearest_integer_f64 backed_chain rdcycleOperator
  /\ fst (@generate_expr ScopedCode unit verbatim_asm_backend backed_chain
            unresolving_generator nearest_integer_f64 [] None [] sc_new)
     = Ok "asm_result".
Proof.
  assert (falls_back_to nearest_integer_f64 backed_chain rdcycleOperator)
    as Hchain.
  { apply falls_back_next; [reflexivity|].
    apply falls_back_next; [reflexivity|]. apply falls_back_here. }
  split; [exact Hchain|].
  exact (f_equal fst
           (@backup_chain_ends_in_inline_asm ScopedCode unit
              verbatim_asm_backend backed_chain _ _ _ unresolving_generator
              nearest_integer_f64 [] None [] sc_new Hchain)).
Defined.

Lemma exhausted_backup_chain_witness :
  falls_back_to nearest_integer_f64 unbacked_chain
    (ComplexOperator no_rewrite None)
  /\ no_rewrite nearest_integer_f64 = Ok None
  /\ @generate_expr ScopedCode unit verbatim_asm_backend unbacked_chain
       (emitting_generator ["tmp := 0;"] "tmp") nearest_integer_f64 [] None []
       sc_new
     = cg_generate_expr (emitting_generator ["tmp := 0;"] "tmp") None [] sc_new.
Proof.
  assert (falls_back_to nearest_integer_f64 unbacked_chain
            (ComplexOperator no_rewrite None)) as Hchain.
  { apply falls_back_next; [reflexivity|]. apply falls_back_here. }
  split; [exact Hchain|]. split; [reflexivity|].
  exact (@exhausted_backup_chain ScopedCode unit verbatim_asm_backend
           unbacked_chain no_rewrite (emitting_generator ["tmp := 0;"] "tmp")
           nearest_integer_f64 [] None [] sc_new Hchain eq_refl).
Defined.

Lemma rv64_rewrite_entries_keep_result_format_witness :
  In (type_strict_match [ML_Int32; ML_Binary64],
      ComplexOperator (lowerConversion ML_Int64 ML_Int32) None)
     (table_entries rv64CCodeGenTable)
  /\ (forall replacement,
        lowerConversion ML_Int64 ML_Int32 nearest_integer_f64
        = Ok (Some replacement) ->
        get_precision replacement = Some ML_Int32).
Proof.
  assert (In (type_strict_match [ML_Int32; ML_Binary64],
              ComplexOperator (lowerConversion ML_Int64 ML_Int32) None)
             (table_entries rv64CCodeGenTable)) as Hin.
  { simpl. do 4 right. left. reflexivity. }
  split; [exact Hin|].
  destruct (rv64_rewrite_entries_keep_result_format _ _ _ Hin)
    as [_ (R & A & I & Hsig & _ & Hmod)].
  injection Hsig as <- <-.
  intros replacement Hrep.
  exact (proj2 (Hmod nearest_integer_f64 _ _ eq_refl) replacement Hrep).
Defined.

Lemma unformatted_input_fails_witness :
  mkSignal "clk" None None ∈ arg_list unformatted_input_entity
  /\ get_precision (mkSignal "clk" None None) = None
  /\ @get_declaration plain_code_name unformatted_input_entity true None
     = Raise (AttributeError "'NoneType' object has no attribute 'get_code_name'").
Proof.
  assert (mkSignal "clk" None None ∈ arg_list unformatted_input_entity) as Hin.
  { apply list_elem_of_further, list_elem_of_here. }
  split; [exact Hin|]. split; [reflexivity|].
  exact (proj1 (@unformatted_input_fails plain_code_name
                  unformatted_input_entity (mkSignal "clk" None None) true None
                  Hin eq_refl)).
Defined.

Lemma declaration_failure_stops_definition_witness :
  @get_declaration plain_code_name unformatted_input_entity false None
    = Raise (AttributeError "'NoneType' object has no attribute 'get_code_name'")
  /\ @add_definition plain_code_name ScopedCode ScopedCode_interface
       unformatted_input_entity (emitting_generator ["x"] "r") None true false
       sc_new
     = (Raise (AttributeError "'NoneType' object has no attribute 'get_code_name'"),
        sc_new).
Proof.
  split; [reflexivity|].
  exact (proj1 (@declaration_failure_stops_definition plain_code_name
                  ScopedCode ScopedCode_interface unformatted_input_entity
                  (emitting_generator ["x"] "r") (emitting_generator ["x"] "r")
                  None true false sc_new _ eq_refl)).
Defined.

Lemma generator_failure_leaves_definition_open_witness :
  @get_declaration plain_code_name foo_entity false None
    = Ok ("entity foo is " ++ nl ++ nl ++ "end foo;" ++ nl ++ nl)
  /\ (forall co,
        cg_generate_expr (failing_generator ["x"] UnresolvedOperatorError)
          (Some (get_scheme foo_entity)) (definition_kwords None true) co
        = (Raise UnresolvedOperatorError, sc_append ["x"] co))
  /\ scopes sc_new = [] :: []
  /\ @add_definition plain_code_name ScopedCode ScopedCode_interface
       foo_entity (failing_generator ["x"] UnresolvedOperatorError) None true
       false sc_new
     = (Raise UnresolvedOperatorError,
        MkScopedCode [] 1
          [ [(1, "x")];
            [(0, "entity foo is " ++ nl ++ nl ++ "end foo;" ++ nl ++ nl);
             (0, "architecture rtl of foo is" ++ nl)] ]).
Proof.
  split; [reflexivity|]. split; [intros co; reflexivity|].
  split; [reflexivity|].
  exact (@generator_failure_leaves_definition_open plain_code_name foo_entity
           (failing_generator ["x"] UnresolvedOperatorError) None true false
           ("entity foo is " ++ nl ++ nl ++ "end foo;" ++ nl ++ nl)
           ["x"] UnresolvedOperatorError sc_new [] [] eq_refl
           (fun co => eq_refl) eq_refl).
Defined.

Lemma get_input_by_tag_persists_witness :
  is_Some (get_input_by_tag
             (entity (snd (run adder_ops
                             (CodeEntity_init "adder" None None None []))))
             (Some "a"))
  /\ is_Some (get_input_by_tag
                (entity (snd (run [Op_clear_arg_list; Op_start_new_stage]
                                (snd (run adder_ops
                                        (CodeEntity_init "adder" None None None []))))))
                (Some "a"))
  /\ arg_list
       (entity (snd (run [Op_clear_arg_list; Op_start_new_stage]
                       (snd (run adder_ops
                               (CodeEntity_init "adder" None None None []))))))
     = [].
Proof.
  assert (is_Some (get_input_by_tag
                     (entity (snd (run adder_ops
                                     (CodeEntity_init "adder" None None None []))))
                     (Some "a"))) as Hfound
    by (vm_compute; eauto).
  split; [exact Hfound|]. split; [|reflexivity].
  exact (get_input_by_tag_persists [Op_clear_arg_list; Op_start_new_stage]
           (snd (run adder_ops (CodeEntity_init "adder" None None None [])))
           (Some "a") Hfound).
Defined.
